(** * spyder_kernels.comms.commbase: the call/reply protocol of [CommBase]

    A shallow embedding of [src/spyder_kernels/comms/commbase.py].

    - Python objects that travel through the protocol are the inductive
      [value]; a [CommsErrorWrapper] instance is one of its constructors.
    - The attributes of a [CommBase] instance, together with the debug log,
      [sys.stderr] and the position of the uuid source, form the record
      [State]; every method is a function in the monad [M], which threads
      the state and either returns or raises.  A raise keeps the mutations
      made before it, as in Python.
    - A raised exception is its class name and its [args]; it carries its
      traceback as the list of function names it crossed, outermost first;
      [in_frame] adds the frame of the function it leaves.  Classes are
      opaque: calling one builds an instance with the given [args], as
      [BaseException] does.
    - Code the module calls but does not define (registered handlers, reply
      callbacks, the subclass's [_wait_reply], [uuid.uuid4],
      [pickle.HIGHEST_PROTOCOL], [sys.version]) is the record [Externals].
      Handlers and callbacks are named; what they do to the state is theirs.
    - [cloudpickle.dumps] is kept symbolic ([Pickled data protocol]) and is
      total: the objects of [value] can be pickled.  An incoming message
      carries the outcome of [cloudpickle.loads] on its buffer, a value or
      the exception it raised.
    - [self._comms] is a [gmap]; each comm object keeps what was handed to
      its [send], so the order in which a broadcast visits the comms does not
      show in the state.
    - [comm_excepthook] takes the hook it replaces as an argument; the
      assignment [sys.excepthook = comm_excepthook] itself is left out. *)

From Stdlib Require Import ZArith.
From stdpp Require Import base option list strings gmap.

Local Open Scope string_scope.
Set Warnings "-register-all".

(** ** Values *)

(** One entry of [traceback.extract_tb]: the name of the function. *)
Definition frame : Type := string.

Inductive value : Type :=
| VNone
| VBool (b : bool)
| VInt (z : Z)
| VStr (s : string)
| VTuple (items : list value)
| VList (items : list value)
| VDict (items : list (string * value))
| VException (etype : string) (args : list value)
| VErrorWrapper (call_name call_id : string) (etype : string)
                (error : value) (tb : list frame).

(** Python truth value of an object. *)
Definition truthy (v : value) : bool :=
  match v with
  | VNone => false
  | VBool b => b
  | VInt z => negb (z =? 0)%Z
  | VStr s => negb (String.eqb s "")
  | VTuple l | VList l => negb (bool_decide (l = []))
  | VDict l => negb (bool_decide (l = []))
  | VException _ _ => true
  | VErrorWrapper _ _ _ _ _ => true
  end.

(** [type(v).__name__]. *)
Definition type_name (v : value) : string :=
  match v with
  | VNone => "NoneType"
  | VBool _ => "bool"
  | VInt _ => "int"
  | VStr _ => "str"
  | VTuple _ => "tuple"
  | VList _ => "list"
  | VDict _ => "dict"
  | VException etype _ => etype
  | VErrorWrapper _ _ _ _ _ => "CommsErrorWrapper"
  end.

(** [a or b] on objects. *)
Definition py_or (a b : value) : value := if truthy a then a else b.

(** [key in d and d[key]] on a settings dictionary. *)
Definition in_and_get (key : string) (d : gmap string value) : value :=
  match d !! key with
  | Some v => v
  | None => VBool false
  end.

(** ** Messages *)

(** The json-able [content] of a message: a call has [settings], a reply has
    [is_error]; both have [call_name] and [call_id]. *)
Record content : Type := Content {
  call_name : string;
  call_id : string;
  settings : option (gmap string value);
  is_error : option bool;
}.

Record msg_dict : Type := MsgDict {
  spyder_msg_type : string;
  msg_content : content;
  msg_pickle_protocol : Z;
  python_version : string;
}.

(** [cloudpickle.dumps(data, protocol=protocol)]. *)
Record pickled : Type := Pickled {
  pickled_data : value;
  pickled_protocol : Z;
}.

(** The comm object of the transport: what was handed to [comm.send]. *)
Record comm : Type := Comm {
  comm_id : string;
  sent : list (msg_dict * list pickled);
}.

Definition comm_send (c : comm) (m : msg_dict) (buffers : list pickled) : comm :=
  {| comm_id := comm_id c; sent := sent c ++ [(m, buffers)] |}.

(** Outcome of [cloudpickle.loads(msg['buffers'][0])]. *)
Inductive loads_result : Type :=
| Loaded (v : value)
| LoadFailed (e : value).

(** A message delivered by the transport to [_comm_message]. *)
Record message : Type := Message {
  msg_comm_id : string;
  msg_data : msg_dict;
  msg_buffers0 : loads_result;
}.

(** ** The state of a [CommBase] *)

Inductive status : Type := opening | ready.

Global Instance status_eq_dec : EqDecision status.
Proof. solve_decision. Defined.

Record comm_entry : Type := CommEntry {
  entry_comm : comm;
  pickle_protocol : Z;
  entry_status : status;
}.

Inductive message_handler : Type :=
| MH_handle_remote_call
| MH_handle_remote_call_reply.

(** A registered call handler: the three built in by [__init__], or a
    callable of the application, named. *)
Inductive call_handler : Type :=
| H_pong_back
| H_pong
| H_set_pickle_protocol
| H_external (f : string).

Record reply : Type := Reply {
  reply_is_error : bool;
  reply_value : value;
  reply_content : content;
}.

Inductive log_record : Type :=
| LogNoSuchMessageType (spyder_msg_type : string)
| LogLoadsException (e : value)
| LogUnexpectedReply (call_name call_id : string)
| LogUnconnectedComm (name : string).

(** One line of [CommsErrorWrapper.format_error]. *)
Inductive line : Type :=
| LineHeader (call_name : string)
| LineFrame (f : frame)
| LineException (etype : string) (error : value).

Record State : Type := MkState {
  calling_comm_id : option string;
  _comms : gmap string comm_entry;
  _message_handlers : gmap string message_handler;
  _remote_call_handlers : gmap string call_handler;
  _reply_inbox : gmap string reply;
  _reply_waitlist : gmap string (value * option string);
  logger_debug : list log_record;
  stderr : list line;
  uuid_drawn : nat;
}.

Definition set_calling_comm_id (c : option string) (st : State) : State :=
  MkState c (_comms st) (_message_handlers st) (_remote_call_handlers st)
          (_reply_inbox st) (_reply_waitlist st) (logger_debug st) (stderr st)
          (uuid_drawn st).

Definition set_comms (f : gmap string comm_entry → gmap string comm_entry)
    (st : State) : State :=
  MkState (calling_comm_id st) (f (_comms st)) (_message_handlers st)
          (_remote_call_handlers st) (_reply_inbox st) (_reply_waitlist st)
          (logger_debug st) (stderr st) (uuid_drawn st).

Definition set_message_handlers
    (f : gmap string message_handler → gmap string message_handler)
    (st : State) : State :=
  MkState (calling_comm_id st) (_comms st) (f (_message_handlers st))
          (_remote_call_handlers st) (_reply_inbox st) (_reply_waitlist st)
          (logger_debug st) (stderr st) (uuid_drawn st).

Definition set_remote_call_handlers
    (f : gmap string call_handler → gmap string call_handler)
    (st : State) : State :=
  MkState (calling_comm_id st) (_comms st) (_message_handlers st)
          (f (_remote_call_handlers st)) (_reply_inbox st) (_reply_waitlist st)
          (logger_debug st) (stderr st) (uuid_drawn st).

Definition set_reply_inbox (f : gmap string reply → gmap string reply)
    (st : State) : State :=
  MkState (calling_comm_id st) (_comms st) (_message_handlers st)
          (_remote_call_handlers st) (f (_reply_inbox st)) (_reply_waitlist st)
          (logger_debug st) (stderr st) (uuid_drawn st).

Definition set_reply_waitlist
    (f : gmap string (value * option string) → gmap string (value * option string))
    (st : State) : State :=
  MkState (calling_comm_id st) (_comms st) (_message_handlers st)
          (_remote_call_handlers st) (_reply_inbox st) (f (_reply_waitlist st))
          (logger_debug st) (stderr st) (uuid_drawn st).

Definition add_log (r : log_record) (st : State) : State :=
  MkState (calling_comm_id st) (_comms st) (_message_handlers st)
          (_remote_call_handlers st) (_reply_inbox st) (_reply_waitlist st)
          (logger_debug st ++ [r]) (stderr st) (uuid_drawn st).

Definition add_stderr (ls : list line) (st : State) : State :=
  MkState (calling_comm_id st) (_comms st) (_message_handlers st)
          (_remote_call_handlers st) (_reply_inbox st) (_reply_waitlist st)
          (logger_debug st) (stderr st ++ ls) (uuid_drawn st).

Definition draw_uuid (st : State) : State :=
  MkState (calling_comm_id st) (_comms st) (_message_handlers st)
          (_remote_call_handlers st) (_reply_inbox st) (_reply_waitlist st)
          (logger_debug st) (stderr st) (S (uuid_drawn st)).

(** ** Returning, raising and state *)

Inductive outcome (A : Type) : Type :=
| Returns (a : A)
| Raises (etype : string) (args : list value) (tb : list frame).
Arguments Returns {A} a.
Arguments Raises {A} etype args tb.

Definition M (A : Type) : Type := State → outcome A * State.

Definition ret {A} (a : A) : M A := λ st, (Returns a, st).

Definition raise {A} (etype : string) (args : list value) : M A :=
  λ st, (Raises etype args [], st).

Definition bind {A B} (m : M A) (k : A → M B) : M B :=
  λ st, match m st with
        | (Returns a, st') => k a st'
        | (Raises etype args tb, st') => (Raises etype args tb, st')
        end.

Definition get_state : M State := λ st, (Returns st, st).

Definition modify (f : State → State) : M unit := λ st, (Returns tt, f st).

(** An exception that leaves the body of function [name] gets its frame. *)
Definition in_frame {A} (name : frame) (m : M A) : M A :=
  λ st, match m st with
        | (Raises etype args tb, st') => (Raises etype args (name :: tb), st')
        | r => r
        end.

(** [sys.exc_info()]: class, instance, traceback. *)
Definition exc_info : Type := string * value * list frame.

(** The built-in classes that derive from [BaseException] and not from
    [Exception]; every other class is taken to derive from [Exception]. *)
Definition is_Exception (etype : string) : bool :=
  negb (bool_decide
    (etype ∈ ["BaseException"; "SystemExit"; "KeyboardInterrupt"; "GeneratorExit"])).

(** [try: m  except Exception: h] inside function [name]; the traceback seen
    by the handler starts at the frame of [name]. *)
Definition try_except {A} (name : frame) (m : M A) (h : exc_info → M A) : M A :=
  λ st, match m st with
        | (Raises etype args tb, st') =>
            if is_Exception etype
            then h (etype, VException etype args, name :: tb) st'
            else (Raises etype args tb, st')
        | r => r
        end.

Notation "'let!' x ':=' m 'in' k" := (bind m (λ x, k))
  (at level 10, x name, m at level 100, k at level 200,
   format "'[v' 'let!'  x  ':='  m  'in' '/' k ']'").
Notation "m ;; k" := (bind m (λ _, k))
  (at level 100, k at level 200, right associativity).

(** ** What the module calls and does not define *)

Record Externals : Type := MkExternals {
  (** [pickle.HIGHEST_PROTOCOL] *)
  HIGHEST_PROTOCOL : Z;
  (** [sys.version] *)
  sys_version : string;
  (** the n-th value of [uuid.uuid4().hex] *)
  uuid4_hex : nat → string;
  (** a handler of the application, called with [*call_args, **call_kwargs] *)
  run_handler : string → list value → list (string * value) → M value;
  (** a reply callback, called with the decoded buffer *)
  run_callback : string → value → M value;
  (** the subclass's [_wait_reply(call_id, call_name, timeout)] *)
  wait_reply : string → string → value → M unit;
}.

(** ** Python's object protocol, as far as the module relies on it *)

(** [d[key]] on an object received from the other side. *)
Definition getitem (d : value) (key : string) : M value :=
  match d with
  | VDict items =>
      match (list_to_map items : gmap string value) !! key with
      | Some v => ret v
      | None => raise "KeyError" [VStr key]
      end
  | VTuple _ | VList _ =>
      raise "TypeError"
        [VStr (type_name d ++ " indices must be integers or slices, not str")]
  | VStr _ => raise "TypeError" [VStr "string indices must be integers"]
  | _ =>
      raise "TypeError"
        [VStr ("'" ++ type_name d ++ "' object is not subscriptable")]
  end.

(** [*call_args]. *)
Definition unpack_args (v : value) : M (list value) :=
  match v with
  | VTuple l | VList l => ret l
  | VStr s => ret ((λ c, VStr (String c EmptyString)) <$> String.list_ascii_of_string s)
  | VDict items => ret ((λ kv, VStr kv.1) <$> items)
  | _ =>
      raise "TypeError"
        [VStr ("argument after * must be an iterable, not " ++ type_name v)]
  end.

(** [**call_kwargs]. *)
Definition unpack_kwargs (v : value) : M (list (string * value)) :=
  match v with
  | VDict items => ret items
  | _ =>
      raise "TypeError"
        [VStr ("argument after ** must be a mapping, not " ++ type_name v)]
  end.

(** ** [class CommError(RuntimeError)] *)

Definition CommError : string := "CommError".

(** ** [class CommsErrorWrapper] *)

Module CommsErrorWrapper.

(** [__init__(self, call_name, call_id)], with the [sys.exc_info()] of the
    [except] clause it is built in. *)
Definition __init__ (call_name call_id : string) (info : exc_info) : value :=
  let '(etype, error, tb) := info in
  VErrorWrapper call_name call_id etype error tb.

Definition no_attribute {A} (self : value) (attr : string) : M A :=
  raise "AttributeError"
    [VStr ("'" ++ type_name self ++ "' object has no attribute '" ++ attr ++ "'")].

(** [raise self.etype(self)] *)
Definition raise_error (self : value) : M unit :=
  match self with
  | VErrorWrapper _ _ etype _ _ => in_frame "raise_error" (raise etype [self])
  | _ => no_attribute self "raise_error"
  end.

Definition format_error (call_name : string) (etype : string) (error : value)
    (tb : list frame) : list line :=
  [LineHeader call_name] ++ (LineFrame <$> tb) ++ [LineException etype error].

(** [print_error(self, file=None)]: every line goes to [sys.stderr]. *)
Definition print_error (self : value) : M unit :=
  match self with
  | VErrorWrapper call_name _ etype error tb =>
      modify (add_stderr (format_error call_name etype error tb))
  | _ => no_attribute self "print_error"
  end.


(** [__repr__]: [repr(self.error)], given [repr] on the wrapped error. *)
Definition __repr__ (repr : value → string) (self : value) : string :=
  match self with
  | VErrorWrapper _ _ _ error _ => repr error
  | _ => repr self
  end.

End CommsErrorWrapper.

(** ** [class RemoteCall], [class RemoteCallFactory]: the objects *)

Record RemoteCall_obj : Type := MkRemoteCall {
  rc_name : string;
  rc_comm_id : option string;
  rc_settings : gmap string value;
  rc_callback : option string;
}.

Record RemoteCallFactory_obj : Type := MkRemoteCallFactory {
  f_comm_id : option string;
  f_callback : option string;
  f_settings : gmap string value;
}.

(** ** [class CommBase] *)

Definition DEFAULT_PICKLE_PROTOCOL : Z := 2.

Definition get_comm_id_list (st : State) (comm_id : option string) : list string :=
  match comm_id with
  | None => (map_to_list (_comms st)).*1
  | Some cid => [cid]
  end.

Definition is_open (st : State) (comm_id : option string) : bool :=
  match comm_id with
  | None => bool_decide (0 < size (_comms st))
  | Some cid => bool_decide (is_Some (_comms st !! cid))
  end.

(** [self._comms[cid]['status'] == 'ready'] *)
Definition status_is_ready (cid : string) : M bool :=
  λ st, match _comms st !! cid with
        | Some e => (Returns (bool_decide (entry_status e = ready)), st)
        | None => (Raises "KeyError" [VStr cid] [], st)
        end.

Definition is_ready (comm_id : option string) : M bool :=
  in_frame "is_ready" (
    let! st := get_state in
    let id_list := get_comm_id_list st comm_id in
    if bool_decide (length id_list = 0) then ret false
    else
      foldr (λ cid k, let! b := status_is_ready cid in
                      let! bs := k in ret (b && bs))
            (ret true) id_list).

(** [del self._comms[comm_id]] *)
Definition del_comm (cid : string) : M unit :=
  let! st := get_state in
  match _comms st !! cid with
  | Some _ => modify (set_comms (delete cid))
  | None => raise "KeyError" [VStr cid]
  end.

(** [close(self, comm_id=None)]; [comm.close()] is the transport's. *)
Definition close (comm_id : option string) : M unit :=
  in_frame "close" (
    let! st := get_state in
    foldr (λ cid k, del_comm cid;; k) (ret tt) (get_comm_id_list st comm_id)).

Definition register_call_handler (call_name : string)
    (handler : option call_handler) : M unit :=
  match handler with
  | None => modify (set_remote_call_handlers (delete call_name))
  | Some h => modify (set_remote_call_handlers (<[call_name := h]>))
  end.

Definition remote_call (comm_id : option string) (callback : option string)
    (settings : gmap string value) : RemoteCallFactory_obj :=
  MkRemoteCallFactory comm_id callback settings.

Definition _register_message_handler (message_id : string)
    (handler : option message_handler) : M unit :=
  match handler with
  | None => modify (set_message_handlers (delete message_id))
  | Some h => modify (set_message_handlers (<[message_id := h]>))
  end.

(** [_register_comm(self, comm)]; [comm.on_msg] and [comm.on_close] hand
    [_comm_message] and [_comm_close] to the transport. *)
Definition _register_comm (c : comm) : M unit :=
  modify (set_comms (<[comm_id c := CommEntry c DEFAULT_PICKLE_PROTOCOL opening]>)).

Definition _comm_close (cid : string) : M unit :=
  in_frame "_comm_close" (del_comm cid).

Section CommBase.
Context (E : Externals).

(** One turn of the loop of [_send_message]. *)
Definition send_on (spyder_msg_type : string) (c : content) (data : value)
    (e : comm_entry) : comm_entry :=
  let msg := MsgDict spyder_msg_type c (pickle_protocol e) (sys_version E) in
  let buffers := [Pickled data (pickle_protocol e)] in
  CommEntry (comm_send (entry_comm e) msg buffers) (pickle_protocol e)
            (entry_status e).

(** The loop [for comm_id in id_list] of [_send_message]. *)
Definition send_to (spyder_msg_type : string) (c : content) (data : value)
    (id_list : list string) (st : State) : State :=
  set_comms (λ comms,
    foldl (λ cs cid, alter (send_on spyder_msg_type c data) cid cs)
          comms id_list) st.

Definition _send_message (spyder_msg_type : string) (c : content)
    (data : value) (comm_id : option string) : M unit :=
  in_frame "_send_message" (
    let! st := get_state in
    if negb (is_open st comm_id) then
      raise CommError [VStr "The comm is not connected."]
    else
      let id_list := get_comm_id_list st comm_id in
      modify (send_to spyder_msg_type c data id_list)).

(** [min(protocol, pickle.HIGHEST_PROTOCOL)]; a [bool] is an [int]. *)
Definition min_with_highest (protocol : value) : M Z :=
  match protocol with
  | VInt z => ret (Z.min z (HIGHEST_PROTOCOL E))
  | VBool b => ret (Z.min (Z.b2z b) (HIGHEST_PROTOCOL E))
  | _ =>
      raise "TypeError"
        [VStr ("'<' not supported between instances of 'int' and '"
               ++ type_name protocol ++ "'")]
  end.

(** [protocol = min(protocol, pickle.HIGHEST_PROTOCOL)] and the two
    assignments into [self._comms[self.calling_comm_id]]. *)
Definition _set_pickle_protocol (protocol : value) : M unit :=
  in_frame "_set_pickle_protocol" (
    let! protocol := min_with_highest protocol in
    let! st := get_state in
    match calling_comm_id st with
    | None => raise "KeyError" [VNone]
    | Some cid =>
        match _comms st !! cid with
        | None => raise "KeyError" [VStr cid]
        | Some e =>
            modify (set_comms
              (<[cid := CommEntry (entry_comm e) protocol ready]>))
        end
    end).

(** [settings = call_dict['settings']] *)
Definition get_settings (call_dict : content) : M (gmap string value) :=
  match settings call_dict with
  | Some s => ret s
  | None => raise "KeyError" [VStr "settings"]
  end.

Definition _set_call_return_value (call_dict : content) (data : value)
    (is_error : bool) : M unit :=
  in_frame "_set_call_return_value" (
    let! settings := get_settings call_dict in
    let send_reply := in_and_get "send_reply" settings in
    if negb (truthy send_reply) && negb is_error then
      (* Nothing to send back *)
      ret tt
    else
      let content :=
        {| is_error := Some is_error;
           call_id := call_id call_dict;
           call_name := call_name call_dict;
           settings := None |} in
      let! st := get_state in
      _send_message "remote_call_reply" content data (calling_comm_id st)).

Definition _register_call (call_dict : content) (callback : option string)
    : M unit :=
  in_frame "_register_call" (
    let! settings := get_settings call_dict in
    let blocking := in_and_get "blocking" settings in
    let call_id := call_id call_dict in
    if truthy blocking || bool_decide (callback ≠ None) then
      modify (set_reply_waitlist (<[call_id := (blocking, callback)]>))
    else ret tt).

Definition _wait_reply (call_id call_name : string) (timeout : value) : M unit :=
  in_frame "_wait_reply" (wait_reply E call_id call_name timeout).

Definition _async_error (error_wrapper : value) : M unit :=
  in_frame "_async_error" (CommsErrorWrapper.print_error error_wrapper).

Definition _sync_error (error_wrapper : value) : M unit :=
  in_frame "_sync_error" (CommsErrorWrapper.raise_error error_wrapper).

(** [reply = self._reply_inbox.pop(call_id)] *)
Definition pop_reply_inbox (call_id : string) : M reply :=
  let! st := get_state in
  match _reply_inbox st !! call_id with
  | Some r => modify (set_reply_inbox (delete call_id));; ret r
  | None => raise "KeyError" [VStr call_id]
  end.

Definition _get_call_return_value (call_dict : content) (call_data : value)
    (comm_id : option string) : M value :=
  in_frame "_get_call_return_value" (
    _send_message "remote_call" call_dict call_data comm_id;;
    let! settings := get_settings call_dict in
    let blocking := in_and_get "blocking" settings in
    if negb (truthy blocking) then ret VNone
    else
      let call_id := call_id call_dict in
      let call_name := call_name call_dict in
      (* Wait for the blocking call *)
      let timeout :=
        match settings !! "timeout" with
        | Some t => t
        | None => VInt 3
        end in
      _wait_reply call_id call_name timeout;;
      let! reply := pop_reply_inbox call_id in
      if reply_is_error reply then
        _sync_error (reply_value reply);; ret VNone
      else ret (reply_value reply)).

End CommBase.

Module RemoteCallFactory.

(** [__getattr__(self, name)] *)
Definition __getattr__ (self : RemoteCallFactory_obj) (name : string)
    : RemoteCall_obj :=
  MkRemoteCall name (f_comm_id self) (f_settings self) (f_callback self).

(** [__setattr__(self, name, value)] *)
Definition __setattr__ (self : RemoteCallFactory_obj) (name : string)
    (v : value) : M unit :=
  in_frame "__setattr__" (raise "NotImplementedError" []).

End RemoteCallFactory.

Module RemoteCall.

(** [self._settings] after
    [self._settings['send_reply'] = blocking or self._callback is not None];
    this dictionary is the ['settings'] of the call. *)
Definition call_settings (self : RemoteCall_obj) : gmap string value :=
  let blocking := in_and_get "blocking" (rc_settings self) in
  <["send_reply" :=
      py_or blocking (VBool (bool_decide (rc_callback self ≠ None)))]>
    (rc_settings self).

Definition __call__ (E : Externals) (self : RemoteCall_obj)
    (args : list value) (kwargs : list (string * value)) : M value :=
  in_frame "__call__" (
    let blocking := in_and_get "blocking" (rc_settings self) in
    let settings := call_settings self in
    let! st := get_state in
    let call_id := uuid4_hex E (uuid_drawn st) in
    modify draw_uuid;;
    let call_dict :=
      {| call_name := rc_name self;
         call_id := call_id;
         settings := Some settings;
         is_error := None |} in
    let call_data :=
      VDict [("call_args", VTuple args); ("call_kwargs", VDict kwargs)] in
    let! st := get_state in
    if negb (is_open st (rc_comm_id self)) then
      (* Only an error if the call is blocking. *)
      if truthy blocking then
        raise CommError [VStr "The comm is not connected."]
      else
        modify (add_log (LogUnconnectedComm (rc_name self)));;
        ret VNone
    else
      _register_call call_dict (rc_callback self);;
      _get_call_return_value E call_dict call_data (rc_comm_id self)).

End RemoteCall.

Section Dispatch.
Context (E : Externals).

(** [def pong_back(): self.remote_call(self.calling_comm_id).pong()] *)
Definition pong_back : M value :=
  in_frame "pong_back" (
    let! st := get_state in
    let factory := remote_call (calling_comm_id st) None ∅ in
    RemoteCall.__call__ E (RemoteCallFactory.__getattr__ factory "pong") [] [];;
    ret VNone).

Definition signature_mismatch {A} (name : string) : M A :=
  raise "TypeError" [VStr (name ++ "() got arguments that do not match its signature")].

(** The call [handler( *call_args, **call_kwargs )], for each handler. *)
Definition call_handler_apply (h : call_handler) (args : list value)
    (kwargs : list (string * value)) : M value :=
  match h with
  | H_pong_back =>
      match args, kwargs with
      | [], [] => pong_back
      | _, _ => signature_mismatch "pong_back"
      end
  | H_pong =>
      match args, kwargs with
      | [], [] => ret VNone
      | _, _ => signature_mismatch "<lambda>"
      end
  | H_set_pickle_protocol =>
      match args, kwargs with
      | [protocol], [] => _set_pickle_protocol E protocol;; ret VNone
      | [], [(name, protocol)] =>
          if String.eqb name "protocol" then
            _set_pickle_protocol E protocol;; ret VNone
          else signature_mismatch "_set_pickle_protocol"
      | _, _ => signature_mismatch "_set_pickle_protocol"
      end
  | H_external f => run_handler E f args kwargs
  end.

Definition _remote_callback (call_name : string) (call_args call_kwargs : value)
    : M value :=
  in_frame "_remote_callback" (
    let! st := get_state in
    match _remote_call_handlers st !! call_name with
    | Some h =>
        let! args := unpack_args call_args in
        let! kwargs := unpack_kwargs call_kwargs in
        call_handler_apply h args kwargs
    | None =>
        raise CommError [VStr ("No such spyder call type: " ++ call_name)]
    end).

Definition _handle_remote_call (msg : msg_dict) (buffer : value)
    (load_exception : option value) : M unit :=
  in_frame "_handle_remote_call" (
    let msg_dict := msg_content msg in
    match load_exception with
    | Some e => modify (add_log (LogLoadsException e))
    | None =>
        try_except "_handle_remote_call"
          (let! call_args := getitem buffer "call_args" in
           let! call_kwargs := getitem buffer "call_kwargs" in
           let! return_value :=
             _remote_callback (call_name msg_dict) call_args call_kwargs in
           _set_call_return_value E msg_dict return_value false)
          (λ info,
             let exc_infos :=
               CommsErrorWrapper.__init__
                 (call_name msg_dict) (call_id msg_dict) info in
             _set_call_return_value E msg_dict exc_infos true)
    end).

(** [is_error = content['is_error']] *)
Definition get_is_error (c : content) : M bool :=
  match is_error c with
  | Some b => ret b
  | None => raise "KeyError" [VStr "is_error"]
  end.

Definition _handle_remote_call_reply (msg : msg_dict) (buffer : value)
    (load_exception : option value) : M unit :=
  in_frame "_handle_remote_call_reply" (
    let content := msg_content msg in
    let call_id := call_id content in
    let call_name := call_name content in
    let! buffer_is_error :=
      match load_exception with
      | Some e => ret (VTuple [e; VList []], true)
      | None => let! is_error := get_is_error content in ret (buffer, is_error)
      end in
    let '(buffer, is_error) := buffer_is_error in
    let! st := get_state in
    match _reply_waitlist st !! call_id with
    | None =>
        (* Unexpected reply *)
        if is_error then _async_error buffer
        else modify (add_log (LogUnexpectedReply call_name call_id))
    | Some (blocking, callback) =>
        modify (set_reply_waitlist (delete call_id));;
        (* Async error *)
        if is_error && negb (truthy blocking) then _async_error buffer
        else
          (* Callback *)
          match callback with
          | Some cb =>
              if negb is_error then run_callback E cb buffer;; ret tt
              else ret tt
          | None => ret tt
          end;;
          (* Blocking inbox *)
          if truthy blocking then
            modify (set_reply_inbox
              (<[call_id := Reply is_error buffer content]>))
          else ret tt
    end).

Definition message_handler_apply (h : message_handler)
    : msg_dict → value → option value → M unit :=
  match h with
  | MH_handle_remote_call => _handle_remote_call
  | MH_handle_remote_call_reply => _handle_remote_call_reply
  end.

Definition _comm_message (msg : message) : M unit :=
  in_frame "_comm_message" (
    modify (set_calling_comm_id (Some (msg_comm_id msg)));;
    (* Load the buffer. Only one is supported. *)
    let '(buffer, load_exception) :=
      match msg_buffers0 msg with
      | Loaded v => (v, None)
      | LoadFailed e => (VNone, Some e)
      end in
    (* Get message dict *)
    let msg_dict := msg_data msg in
    let spyder_msg_type := spyder_msg_type msg_dict in
    let! st := get_state in
    match _message_handlers st !! spyder_msg_type with
    | Some h => message_handler_apply h msg_dict buffer load_exception
    | None => modify (add_log (LogNoSuchMessageType spyder_msg_type))
    end).

End Dispatch.

(** The attributes as the first lines of [CommBase.__init__] set them. *)
Definition blank : State :=
  {| calling_comm_id := None;
     _comms := ∅;
     _message_handlers := ∅;
     _remote_call_handlers := ∅;
     _reply_inbox := ∅;
     _reply_waitlist := ∅;
     logger_debug := [];
     stderr := [];
     uuid_drawn := 0 |}.

(** [CommBase.__init__]: the object once the two message handlers and the
    three built-in call handlers are registered. *)
Definition CommBase__init__ : State :=
  ((_register_message_handler "remote_call" (Some MH_handle_remote_call);;
    _register_message_handler "remote_call_reply" (Some MH_handle_remote_call_reply);;
    register_call_handler "ping" (Some H_pong_back);;
    register_call_handler "pong" (Some H_pong);;
    register_call_handler "_set_pickle_protocol" (Some H_set_pickle_protocol))
     blank).2.

(** ** A concrete endpoint, used to run the definitions *)

Module Demo.

(** Handlers of the application: [add(x, y)] returns [x + y], [div0()]
    raises [ZeroDivisionError("division by zero")]. *)
Definition handlers (f : string) (args : list value)
    (kwargs : list (string * value)) : M value :=
  if String.eqb f "add" then
    match args, kwargs with
    | [VInt x; VInt y], [] => ret (VInt (x + y))
    | _, _ => in_frame "add" (raise "TypeError" [VStr "add() expects two integers"])
    end
  else
    in_frame "div0" (raise "ZeroDivisionError" [VStr "division by zero"]).

(** Every callback returns [None]. *)
Definition callbacks (cb : string) (v : value) : M value := ret VNone.

(** [CommBase._wait_reply]: [raise NotImplementedError]. *)
Definition base_wait_reply (call_id call_name : string) (timeout : value)
    : M unit :=
  raise "NotImplementedError" [].

Definition uuid (n : nat) : string :=
  String.concat "" (replicate n "f") ++ "0".

Definition E : Externals :=
  {| HIGHEST_PROTOCOL := 5;
     sys_version := "3.9";
     uuid4_hex := uuid;
     run_handler := handlers;
     run_callback := callbacks;
     wait_reply := base_wait_reply |}.

(** A subclass whose [_wait_reply] returns once the transport has
    delivered [incoming] to [_comm_message]. *)
Definition E_waiting (incoming : list message) : Externals :=
  {| HIGHEST_PROTOCOL := 5;
     sys_version := "3.9";
     uuid4_hex := uuid;
     run_handler := handlers;
     run_callback := callbacks;
     wait_reply := λ _ _ _,
       foldr (λ m k, _comm_message E m;; k) (ret tt) incoming |}.

(** An endpoint with one comm, ["c1"], and the handlers [add], [div0]. *)
Definition st0 : State :=
  (register_call_handler "div0" (Some (H_external "div0"))
    (register_call_handler "add" (Some (H_external "add"))
      (_register_comm (Comm "c1" []) CommBase__init__).2).2).2.

(** A reply to the first call of the endpoint, flagged as an error, whose
    buffer [cloudpickle.loads] rejects. *)
Definition undecodable_reply : message :=
  Message "c1"
    (MsgDict "remote_call_reply" (Content "div0" (uuid 0) None (Some true)) 2 "3.9")
    (LoadFailed (VException "UnpicklingError" [VStr "invalid load key"])).

End Demo.

(** The first step of [_handle_remote_call_reply]: the buffer and the error
    flag it goes on with; [None] when the content has no ['is_error']. *)
Definition reply_view (c : content) (buffer : value)
    (load_exception : option value) : option (value * bool) :=
  match load_exception with
  | Some e => Some (VTuple [e; VList []], true)
  | None => (λ b, (buffer, b)) <$> is_error c
  end.

(** The content of the reply to call [c]. *)
Definition reply_to (c : content) (is_error : bool) : content :=
  {| call_name := call_name c; call_id := call_id c; settings := None;
     is_error := Some is_error |}.


(** ** Sessions and readiness *)

Definition ready_at (st : State) (cid : string) : Prop :=
  entry_status <$> _comms st !! cid = Some ready.

(** Between [st] and [st'] no session became ready, except possibly [c]. *)
Definition ready_only_at (c : option string) (st st' : State) : Prop :=
  ∀ cid, ready_at st' cid → ready_at st cid ∨ c = Some cid.

(** The entry points of a [CommBase]: its public methods, the two callbacks
    it hands to the transport, and a call through a [RemoteCall]. *)
Inductive entry_point : Type :=
| EP_close (comm_id : option string)
| EP_register_call_handler (call_name : string) (handler : option call_handler)
| EP_register_comm (c : comm)
| EP_comm_close (cid : string)
| EP_comm_message (msg : message)
| EP_remote_call (rc : RemoteCall_obj) (args : list value)
                 (kwargs : list (string * value)).

Definition run_entry_point (E : Externals) (ep : entry_point) (st : State) : State :=
  match ep with
  | EP_close comm_id => (close comm_id st).2
  | EP_register_call_handler call_name handler =>
      (register_call_handler call_name handler st).2
  | EP_register_comm c => (_register_comm c st).2
  | EP_comm_close cid => (_comm_close cid st).2
  | EP_comm_message msg => (_comm_message E msg st).2
  | EP_remote_call rc args kwargs => (RemoteCall.__call__ E rc args kwargs st).2
  end.

(** The session on which [ep] executes the handshake call: an incoming,
    decoded [remote_call] whose name is bound to [_set_pickle_protocol]. *)
Definition handshake_session (ep : entry_point) (st : State) : option string :=
  match ep with
  | EP_comm_message msg =>
      match _message_handlers st !! spyder_msg_type (msg_data msg),
            msg_buffers0 msg with
      | Some MH_handle_remote_call, Loaded _ =>
          match _remote_call_handlers st
                  !! call_name (msg_content (msg_data msg)) with
          | Some H_set_pickle_protocol => Some (msg_comm_id msg)
          | _ => None
          end
      | _, _ => None
      end
  | _ => None
  end.

(** Code of the application leaves the status of every session alone. *)
Definition externals_keep_status (E : Externals) : Prop :=
  (∀ f args kwargs st, ready_only_at None st (run_handler E f args kwargs st).2) ∧
  (∀ cb v st, ready_only_at None st (run_callback E cb v st).2) ∧
  (∀ call_id call_name timeout st,
     ready_only_at None st (wait_reply E call_id call_name timeout st).2).

(** The session a handler may make ready. *)
Definition handler_session (h : option call_handler) (st : State) : option string :=
  match h with
  | Some H_set_pickle_protocol => calling_comm_id st
  | _ => None
  end.


(** The call as [RemoteCall.__call__] builds it in state [st]. *)
Definition call_dict_of (E : Externals) (self : RemoteCall_obj) (st : State) : content :=
  {| call_name := rc_name self;
     call_id := uuid4_hex E (uuid_drawn st);
     settings := Some (RemoteCall.call_settings self);
     is_error := None |}.

Definition call_data_of (args : list value) (kwargs : list (string * value)) : value :=
  VDict [("call_args", VTuple args); ("call_kwargs", VDict kwargs)].

(** The state in which a blocking call starts to wait: the uuid is drawn, the
    call registered and sent. *)
Definition call_sent (E : Externals) (self : RemoteCall_obj) (args : list value)
    (kwargs : list (string * value)) (st : State) : State :=
  send_to E "remote_call" (call_dict_of E self st) (call_data_of args kwargs)
    (get_comm_id_list st (rc_comm_id self))
    (set_reply_waitlist
       (<[uuid4_hex E (uuid_drawn st) :=
            (in_and_get "blocking" (rc_settings self), rc_callback self)]>)
       (draw_uuid st)).

Definition call_timeout (self : RemoteCall_obj) : value :=
  match RemoteCall.call_settings self !! "timeout" with
  | Some t => t
  | None => VInt 3
  end.

(** The transport and the codec between two endpoints: what one side handed
    to [comm.send] arrives on the other side's comm [cid]; loading the buffer
    gives the pickled object back. *)
Definition delivered (cid : string) (item : msg_dict * list pickled) : message :=
  Message cid item.1
    match item.2 with
    | b :: _ => Loaded (pickled_data b)
    | [] => LoadFailed (VException "IndexError" [VStr "list index out of range"])
    end.

(** ** [comm_excepthook], the replacement of [sys.excepthook] *)


(** [st'] has the waitlist entry and the inbox slot of [other], and the
    comms, of [st]. *)
Definition untouched_at (other : string) (st st' : State) : Prop :=
  _reply_waitlist st' !! other = _reply_waitlist st !! other ∧
  _reply_inbox st' !! other = _reply_inbox st !! other ∧
  _comms st' = _comms st.

(** ** Concrete calls and messages on the endpoint of [Demo] *)

Module Scenario.
Import Demo.

Definition blocking_settings : gmap string value := <["blocking" := VBool true]> ∅.

(** [self.remote_call("c1", blocking=True).add] *)
Definition add_call : RemoteCall_obj :=
  RemoteCallFactory.__getattr__ (remote_call (Some "c1") None blocking_settings) "add".

Definition c1_entry : comm_entry := CommEntry (Comm "c1" []) 2 opening.

(** The reply of the other side to the first call of [st0], [add(2, 3)]. *)
Definition add_reply : message :=
  delivered "c1"
    (MsgDict "remote_call_reply"
       (reply_to (call_dict_of E add_call st0) false) 2 "3.9",
     [Pickled (VInt 5) 2]).

Definition add_call_content : content :=
  Content "add" "id1" (Some (<["send_reply" := VBool true]> ∅)) None.

Definition handshake_message : message :=
  Message "c1"
    (MsgDict "remote_call"
       (Content "_set_pickle_protocol" "id0" (Some ∅) None) 2 "3.9")
    (Loaded (call_data_of [VInt 4] [])).

(** In [with_call], the first call of the endpoint is outstanding. *)
Definition with_call : State :=
  call_sent E add_call [VInt 2; VInt 3] [] st0.

(** An incoming call [div0()] that asks for no reply. *)
Definition div0_call : msg_dict :=
  MsgDict "remote_call"
    (Content "div0" "id2" (Some (<["send_reply" := VBool false]> ∅)) None) 2 "3.9".

Definition received : State := set_calling_comm_id (Some "c1") st0.

Definition unknown_call : msg_dict :=
  MsgDict "remote_call" (Content "no_such_call" "id3" (Some ∅) None) 2 "3.9".

End Scenario.

(** ** More calls and messages on the endpoint of [Demo] *)

Module Scenario2.
Import Scenario.
Import Demo.

(** [self.remote_call("c1", callback=cb).add] and the same with [cb2]. *)
Definition add_async (cb : string) : RemoteCall_obj :=
  RemoteCallFactory.__getattr__ (remote_call (Some "c1") (Some cb) ∅) "add".




Definition ping_message : message :=
  Message "c1"
    (MsgDict "remote_call" (Content "ping" "id4" (Some ∅) None) 2 "3.9")
    (Loaded (call_data_of [] [])).


(** The endpoint after its only comm was closed by the other side, with
    ["c1"] still the calling comm. *)
Definition closed : State := (_comm_close "c1" received).2.

(** A subclass whose [_wait_reply] returns at once. *)
Definition E_returning : Externals :=
  {| HIGHEST_PROTOCOL := 5;
     sys_version := "3.9";
     uuid4_hex := uuid;
     run_handler := handlers;
     run_callback := callbacks;
     wait_reply := λ _ _ _, ret tt |}.

End Scenario2.

(** * Properties *)

Ltac unfold_monad :=
  unfold bind, ret, raise, get_state, modify, in_frame, try_except in *.

Section Protocol.
Context (E : Externals).

Lemma _send_message_open ty c data comm_id st :
  is_open st comm_id = true →
  _send_message E ty c data comm_id st =
    (Returns tt, send_to E ty c data (get_comm_id_list st comm_id) st).
Proof. intros H. unfold _send_message. unfold_monad. by rewrite H. Qed.

Lemma _send_message_not_open ty c data comm_id st :
  is_open st comm_id = false →
  _send_message E ty c data comm_id st =
    (Raises CommError [VStr "The comm is not connected."] ["_send_message"], st).
Proof. intros H. unfold _send_message. unfold_monad. by rewrite H. Qed.

Lemma reply_unmatched msg buffer load_exception st buf err :
  reply_view (msg_content msg) buffer load_exception = Some (buf, err) →
  _reply_waitlist st !! call_id (msg_content msg) = None →
  _handle_remote_call_reply E msg buffer load_exception st =
    in_frame "_handle_remote_call_reply"
      (if err then _async_error buf
       else modify (add_log (LogUnexpectedReply (call_name (msg_content msg))
                                                (call_id (msg_content msg))))) st.
Proof.
  intros Hv Hw. unfold _handle_remote_call_reply, reply_view, get_is_error in *.
  destruct load_exception as [e|].
  - inversion Hv; subst. unfold_monad. by rewrite Hw.
  - destruct (is_error (msg_content msg)) as [b|]; [|done].
    inversion Hv; subst. unfold_monad. by rewrite Hw.
Qed.


Lemma reply_matched msg buffer load_exception st buf err blocking callback :
  reply_view (msg_content msg) buffer load_exception = Some (buf, err) →
  _reply_waitlist st !! call_id (msg_content msg) = Some (blocking, callback) →
  _handle_remote_call_reply E msg buffer load_exception st =
    in_frame "_handle_remote_call_reply"
      (if err && negb (truthy blocking) then _async_error buf
       else
         match callback with
         | Some cb =>
             if negb err then run_callback E cb buf;; ret tt else ret tt
         | None => ret tt
         end;;
         if truthy blocking then
           modify (set_reply_inbox
             (<[call_id (msg_content msg) := Reply err buf (msg_content msg)]>))
         else ret tt)
      (set_reply_waitlist (delete (call_id (msg_content msg))) st).
Proof.
  intros Hv Hw. unfold _handle_remote_call_reply, reply_view, get_is_error in *.
  destruct load_exception as [e|].
  - inversion Hv; subst. unfold_monad. by rewrite Hw.
  - destruct (is_error (msg_content msg)) as [b|]; [|done].
    inversion Hv; subst. unfold_monad. by rewrite Hw.
Qed.

Lemma async_error_waitlist buf st :
  _reply_waitlist (_async_error buf st).2 = _reply_waitlist st.
Proof.
  unfold _async_error, CommsErrorWrapper.print_error,
    CommsErrorWrapper.no_attribute.
  unfold_monad. by destruct buf.
Qed.

(** C4.  Resolution is at most once per call id.  Processing a reply whose
    call id is in the waitlist removes the entry -- whatever the route the
    reply then takes, and also when its callback or the error handler
    raises -- and a second reply with the same call id takes the branch of
    unexpected replies: [_async_error] if it is an error, one debug record
    and nothing else if not.  The callback of the entry, code of the
    application, is assumed not to register that call id again. *)
Theorem C4_at_most_once (msg1 msg2 : msg_dict) (buffer1 buffer2 : value)
  (le1 le2 : option value) (st : State) (entry : value * option string)
  (buf1 buf2 : value) (err1 err2 : bool) :
let cid := call_id (msg_content msg1) in
call_id (msg_content msg2) = cid →
_reply_waitlist st !! cid = Some entry →
reply_view (msg_content msg1) buffer1 le1 = Some (buf1, err1) →
reply_view (msg_content msg2) buffer2 le2 = Some (buf2, err2) →
(∀ cb v st0, entry.2 = Some cb →
   _reply_waitlist st0 !! cid = None →
   _reply_waitlist (run_callback E cb v st0).2 !! cid = None) →
let st1 := (_handle_remote_call_reply E msg1 buffer1 le1 st).2 in
_reply_waitlist st1 !! cid = None ∧
_handle_remote_call_reply E msg2 buffer2 le2 st1 =
  in_frame "_handle_remote_call_reply"
    (if err2 then _async_error buf2
     else modify (add_log (LogUnexpectedReply (call_name (msg_content msg2)) cid)))
    st1.
Proof.
intros cid Hid Hw Hv1 Hv2 Hcb st1.
assert (Hgone : _reply_waitlist st1 !! cid = None).
{ subst st1. destruct entry as [blocking callback].
  rewrite (reply_matched _ _ _ _ _ _ _ _ Hv1 Hw). fold cid.
  set (st' := set_reply_waitlist (delete cid) st).
  assert (Hdel : _reply_waitlist st' !! cid = None) by apply lookup_delete_eq.
  clearbody st'. unfold in_frame at 1.
  destruct (err1 && negb (truthy blocking)).
  - pose proof (async_error_waitlist buf1 st') as Ha.
    destruct (_async_error buf1 st') as [[|] s]; simpl in *; by rewrite Ha.
  - match goal with |- context [bind ?m ?k] => set (cbm := m); set (kk := k) end.
    assert (Hc : _reply_waitlist (cbm st').2 !! cid = None).
    { subst cbm. destruct callback as [cb|]; [|done].
      destruct (negb err1); [|done]. unfold bind, ret.
      specialize (Hcb cb buf1 st' eq_refl Hdel).
      by destruct (run_callback E cb buf1 st') as [[|] s']. }
    unfold bind. destruct (cbm st') as [[[]|] s]; simpl in *; [|done].
    subst kk. simpl. by destruct (truthy blocking). }
split; [done|].
rewrite <- Hid in Hgone |- *.
by apply reply_unmatched.
Qed.

(** C3.  [_register_call] puts [(blocking, callback)] in the waitlist under
    the call id when [blocking] is true or a callback was given, and is a
    no-op on the whole state otherwise; for a fresh call id the entry exists
    afterwards iff that condition holds, and without it a later reply with
    that call id takes the branch of unexpected replies. *)
Theorem C3_register_tracks_iff (call_dict : content) (s : gmap string value)
  (callback : option string) (st : State) :
settings call_dict = Some s →
let blocking := in_and_get "blocking" s in
let tracked := truthy blocking || bool_decide (callback ≠ None) in
let st' := (_register_call call_dict callback st).2 in
(_register_call call_dict callback st).1 = Returns tt ∧
(tracked = true →
   st' = set_reply_waitlist (<[call_id call_dict := (blocking, callback)]>) st) ∧
(tracked = false → st' = st) ∧
(_reply_waitlist st !! call_id call_dict = None →
   (is_Some (_reply_waitlist st' !! call_id call_dict) ↔ tracked = true) ∧
   (tracked = false →
      ∀ msg buffer load_exception buf err,
        call_id (msg_content msg) = call_id call_dict →
        reply_view (msg_content msg) buffer load_exception = Some (buf, err) →
        _handle_remote_call_reply E msg buffer load_exception st' =
          in_frame "_handle_remote_call_reply"
            (if err then _async_error buf
             else modify (add_log (LogUnexpectedReply
                                     (call_name (msg_content msg))
                                     (call_id call_dict)))) st')).
Proof.
intros Hs blocking tracked st'.
assert (Hrun : _register_call call_dict callback st =
          (Returns tt,
           if tracked
           then set_reply_waitlist (<[call_id call_dict := (blocking, callback)]>) st
           else st)).
{ unfold _register_call, get_settings. rewrite Hs. unfold_monad.
  fold blocking. fold tracked. by destruct tracked. }
subst st'. rewrite Hrun. simpl.
split; [done|]. split; [by intros ->|]. split; [by intros ->|].
intros Hfresh. split.
- destruct tracked.
  + split; [done|]. intros _. simpl. rewrite lookup_insert_eq. by eexists.
  + split; [|done]. rewrite Hfresh. by intros [? ?].
- intros ->. intros msg buffer le buf err Hid Hv.
  rewrite <- Hid in Hfresh |- *. by apply reply_unmatched.
Qed.

(** C5.  A [RemoteCall] invoked on a channel that is not open: a blocking
    call raises [CommError], a non-blocking one returns [None] after one
    debug record; in both cases only the uuid was drawn -- the comms (nothing
    sent), the waitlist (nothing registered) and the inbox are unchanged. *)
Theorem C5_call_on_closed_channel (self : RemoteCall_obj) (args : list value)
  (kwargs : list (string * value)) (st : State) :
is_open st (rc_comm_id self) = false →
let r := RemoteCall.__call__ E self args kwargs st in
(if truthy (in_and_get "blocking" (rc_settings self))
 then r = (Raises CommError [VStr "The comm is not connected."] ["__call__"],
           draw_uuid st)
 else r = (Returns VNone,
           add_log (LogUnconnectedComm (rc_name self)) (draw_uuid st))) ∧
_comms r.2 = _comms st ∧
_reply_waitlist r.2 = _reply_waitlist st ∧
_reply_inbox r.2 = _reply_inbox st.
Proof.
intros Hclosed r. subst r. unfold RemoteCall.__call__. unfold_monad.
replace (is_open (draw_uuid st) (rc_comm_id self)) with false
  by (rewrite <- Hclosed; by destruct (rc_comm_id self)).
simpl. by destruct (truthy (in_and_get "blocking" (rc_settings self))).
Qed.

(** C9.  An incoming call whose buffer failed to load is dropped: the
    handler of the call is not run and nothing is sent; [_handle_remote_call]
    returns with one debug record added and the rest of the state as it
    was. *)
Theorem C9_undecodable_call_dropped (msg : msg_dict) (buffer e : value) (st : State) :
_handle_remote_call E msg buffer (Some e) st =
  (Returns tt, add_log (LogLoadsException e) st).
Proof. reflexivity. Qed.

Lemma comm_message_undecodable_call (msg : message) (e : value) (st : State) :
msg_buffers0 msg = LoadFailed e →
_message_handlers st !! spyder_msg_type (msg_data msg) = Some MH_handle_remote_call →
_comm_message E msg st =
  (Returns tt,
   add_log (LogLoadsException e) (set_calling_comm_id (Some (msg_comm_id msg)) st)).
Proof.
intros Hb Hh. unfold _comm_message. unfold_monad. rewrite Hb. simpl.
by rewrite Hh.
Qed.

(** C10.  An incoming reply whose buffer failed to load is not dropped.
    Whatever ['is_error'] its content has, it goes on as an error with the
    pair [(load_exception, [])] as its value: to [_async_error] when the
    call id is not in the waitlist or the entry is not blocking, into the
    inbox slot of the waiting caller, with [is_error] true, when it is
    blocking (the callback is not run).  That is the route of a decoded
    error reply that carries this pair. *)
Theorem C10_undecodable_reply_is_error_reply (msg : msg_dict) (buffer e : value)
    (st : State) :
  let c := msg_content msg in
  let pair := VTuple [e; VList []] in
  let run := _handle_remote_call_reply E msg buffer (Some e) st in
  let st' := set_reply_waitlist (delete (call_id c)) st in
  match _reply_waitlist st !! call_id c with
  | None => run = in_frame "_handle_remote_call_reply" (_async_error pair) st
  | Some (blocking, callback) =>
      if truthy blocking then
        run = (Returns tt,
               set_reply_inbox (<[call_id c := Reply true pair c]>) st')
      else run = in_frame "_handle_remote_call_reply" (_async_error pair) st'
  end ∧
  (is_error c = Some true → run = _handle_remote_call_reply E msg pair None st).
Proof.
  intros c pair run st'. subst run. split.
  - destruct (_reply_waitlist st !! call_id c) as [[blocking callback]|] eqn:Hw.
    + rewrite (reply_matched msg buffer (Some e) st pair true blocking callback
                 eq_refl Hw).
      fold c st'. simpl. destruct (truthy blocking); simpl; [|done].
      unfold_monad. by destruct callback.
    + by rewrite (reply_unmatched msg buffer (Some e) st pair true eq_refl Hw).
  - intros Herr.
    assert (Hv : reply_view c pair None = Some (pair, true))
      by (unfold reply_view; by rewrite Herr).
    destruct (_reply_waitlist st !! call_id c) as [[blocking callback]|] eqn:Hw.
    + rewrite (reply_matched msg buffer (Some e) st pair true blocking callback
                 eq_refl Hw).
      by rewrite (reply_matched msg pair None st pair true blocking callback Hv Hw).
    + rewrite (reply_unmatched msg buffer (Some e) st pair true eq_refl Hw).
      by rewrite (reply_unmatched msg pair None st pair true Hv Hw).
Qed.

Lemma sync_error_wrapper call_name call_id etype error tb st :
  let w := VErrorWrapper call_name call_id etype error tb in
  _sync_error w st = (Raises etype [w] ["_sync_error"; "raise_error"], st).
Proof. reflexivity. Qed.

Lemma sync_error_pair e trace st :
  _sync_error (VTuple [e; trace]) st =
    (Raises "AttributeError"
       [VStr "'tuple' object has no attribute 'raise_error'"] ["_sync_error"], st).
Proof. reflexivity. Qed.

Lemma async_error_pair e trace st :
  _async_error (VTuple [e; trace]) st =
    (Raises "AttributeError"
       [VStr "'tuple' object has no attribute 'print_error'"] ["_async_error"], st).
Proof. reflexivity. Qed.


Lemma set_call_return_value_run c s data (is_err : bool) st :
  settings c = Some s →
  is_open st (calling_comm_id st) = true →
  _set_call_return_value E c data is_err st =
    (Returns tt,
     if negb (truthy (in_and_get "send_reply" s)) && negb is_err then st
     else send_to E "remote_call_reply" (reply_to c is_err) data
            (get_comm_id_list st (calling_comm_id st)) st).
Proof.
  intros Hs Hopen. unfold _set_call_return_value, get_settings. rewrite Hs.
  unfold bind at 1. unfold ret at 1. unfold in_frame.
  destruct (negb (truthy (in_and_get "send_reply" s)) && negb is_err); [done|].
  unfold bind, get_state. by rewrite _send_message_open.
Qed.

Lemma handle_remote_call_run msg buffer st s call_args call_kwargs out st1 :
  let c := msg_content msg in
  settings c = Some s →
  getitem buffer "call_args" st = (Returns call_args, st) →
  getitem buffer "call_kwargs" st = (Returns call_kwargs, st) →
  _remote_callback E (call_name c) call_args call_kwargs st = (out, st1) →
  is_open st1 (calling_comm_id st1) = true →
  _handle_remote_call E msg buffer None st =
    let ids := get_comm_id_list st1 (calling_comm_id st1) in
    match out with
    | Returns v =>
        (Returns tt,
         if truthy (in_and_get "send_reply" s)
         then send_to E "remote_call_reply" (reply_to c false) v ids st1
         else st1)
    | Raises etype args tb =>
        if is_Exception etype then
          (Returns tt,
           send_to E "remote_call_reply" (reply_to c true)
             (VErrorWrapper (call_name c) (call_id c) etype
                (VException etype args) ("_handle_remote_call" :: tb)) ids st1)
        else (Raises etype args ("_handle_remote_call" :: tb), st1)
    end.
Proof.
  intros c Hs Ha Hk Hcb Hopen. unfold _handle_remote_call. fold c.
  unfold in_frame at 1, try_except at 1.
  unfold bind at 1. rewrite Ha. unfold bind at 1. rewrite Hk.
  unfold bind at 1. rewrite Hcb.
  destruct out as [v|etype args tb].
  - rewrite (set_call_return_value_run c s v false st1 Hs Hopen).
    rewrite andb_true_r. by destruct (truthy (in_and_get "send_reply" s)).
  - destruct (is_Exception etype); [|done].
    unfold CommsErrorWrapper.__init__.
    rewrite (set_call_return_value_run c s _ true st1 Hs Hopen).
    by rewrite andb_false_r.
Qed.

Lemma remote_callback_unknown name call_args call_kwargs st :
  _remote_call_handlers st !! name = None →
  _remote_callback E name call_args call_kwargs st =
    (Raises CommError [VStr ("No such spyder call type: " ++ name)]
            ["_remote_callback"], st).
Proof. intros H. unfold _remote_callback. unfold_monad. by rewrite H. Qed.


Lemma send_to_single ty c data cid e st :
  _comms st !! cid = Some e →
  _comms (send_to E ty c data [cid] st) !! cid = Some (send_on E ty c data e).
Proof. intros H. simpl. by rewrite lookup_alter_eq, H. Qed.

Lemma is_open_Some st cid e : _comms st !! cid = Some e → is_open st (Some cid) = true.
Proof. intros H. simpl. apply bool_decide_eq_true. by eexists. Qed.


(** C7, amended.  A call whose name is not in [_remote_call_handlers] fails
    with a [CommError] whose message is ["No such spyder call type: <name>"];
    on an open calling comm that error, wrapped, is sent back as an error
    reply.  [CommError] is also the class [_send_message] raises on a comm
    that is not connected: the module has one error class. *)
Theorem C7_unknown_call_raises_CommError (msg : msg_dict) (buffer : value)
    (st : State) (s : gmap string value) (call_args call_kwargs : value)
    (cid : string) (e : comm_entry) :
  let c := msg_content msg in
  _remote_call_handlers st !! call_name c = None →
  settings c = Some s →
  getitem buffer "call_args" st = (Returns call_args, st) →
  getitem buffer "call_kwargs" st = (Returns call_kwargs, st) →
  calling_comm_id st = Some cid →
  _comms st !! cid = Some e →
  let text := VStr ("No such spyder call type: " ++ call_name c) in
  _remote_callback E (call_name c) call_args call_kwargs st =
    (Raises CommError [text] ["_remote_callback"], st) ∧
  _handle_remote_call E msg buffer None st =
    (Returns tt,
     send_to E "remote_call_reply" (reply_to c true)
       (VErrorWrapper (call_name c) (call_id c) CommError
          (VException CommError [text])
          ["_handle_remote_call"; "_remote_callback"]) [cid] st) ∧
  (∀ ty c' data st', is_open st' None = false →
     _send_message E ty c' data None st' =
       (Raises CommError [VStr "The comm is not connected."] ["_send_message"], st')).
Proof.
  intros c Hn Hs Ha Hk Hcid He text.
  pose proof (remote_callback_unknown (call_name c) call_args call_kwargs st Hn)
    as Hcb.
  split; [done|]. split.
  - assert (Hopen : is_open st (calling_comm_id st) = true)
      by (rewrite Hcid; by eapply is_open_Some).
    rewrite (handle_remote_call_run msg buffer st s call_args call_kwargs _ st
               Hs Ha Hk Hcb Hopen).
    by rewrite Hcid.
  - intros. by apply _send_message_not_open.
Qed.

Lemma set_pickle_protocol_run (p : Z) (st : State) (cid : string) (e : comm_entry) :
  calling_comm_id st = Some cid →
  _comms st !! cid = Some e →
  _set_pickle_protocol E (VInt p) st =
    (Returns tt,
     set_comms (<[cid := CommEntry (entry_comm e)
                           (Z.min p (HIGHEST_PROTOCOL E)) ready]>) st).
Proof.
  intros Hc He. unfold _set_pickle_protocol, min_with_highest. unfold_monad.
  by rewrite Hc, He.
Qed.

End Protocol.

(** ** A blocking call and its reply, across the two endpoints *)

Section RoundTrip.
Context (EA EB : Externals).

Lemma in_and_get_call_settings_blocking self :
  in_and_get "blocking" (RemoteCall.call_settings self) =
  in_and_get "blocking" (rc_settings self).
Proof.
  unfold in_and_get, RemoteCall.call_settings. by rewrite lookup_insert_ne.
Qed.

Lemma in_and_get_call_settings_send_reply self :
  in_and_get "send_reply" (RemoteCall.call_settings self) =
  py_or (in_and_get "blocking" (rc_settings self))
        (VBool (bool_decide (rc_callback self ≠ None))).
Proof.
  unfold in_and_get at 1, RemoteCall.call_settings. by rewrite lookup_insert_eq.
Qed.

Lemma blocking_call_run self args kwargs st :
  is_open st (rc_comm_id self) = true →
  truthy (in_and_get "blocking" (rc_settings self)) = true →
  let call_id := uuid4_hex EA (uuid_drawn st) in
  RemoteCall.__call__ EA self args kwargs st =
    in_frame "__call__" (in_frame "_get_call_return_value" (
      _wait_reply EA call_id (rc_name self) (call_timeout self);;
      let! reply := pop_reply_inbox call_id in
      if reply_is_error reply then _sync_error (reply_value reply);; ret VNone
      else ret (reply_value reply)))
    (call_sent EA self args kwargs st).
Proof.
  intros Hopen Hb call_id.
  unfold RemoteCall.__call__, _register_call, _get_call_return_value, get_settings.
  cbn [settings call_id call_name].
  unfold bind, ret, get_state, modify, in_frame.
  change (is_open (draw_uuid st) (rc_comm_id self)) with (is_open st (rc_comm_id self)).
  rewrite Hopen. cbn [negb].
  rewrite !in_and_get_call_settings_blocking, Hb. cbn [negb orb].
  rewrite _send_message_open by done.
  reflexivity.
Qed.


Lemma comm_message_dispatch E (msg : message) st :
  _comm_message E msg st =
    in_frame "_comm_message"
      (match _message_handlers st !! spyder_msg_type (msg_data msg) with
       | Some h =>
           match msg_buffers0 msg with
           | Loaded v => message_handler_apply E h (msg_data msg) v None
           | LoadFailed e => message_handler_apply E h (msg_data msg) VNone (Some e)
           end
       | None =>
           modify (add_log (LogNoSuchMessageType (spyder_msg_type (msg_data msg))))
       end)
      (set_calling_comm_id (Some (msg_comm_id msg)) st).
Proof.
  unfold _comm_message. unfold bind, modify, get_state, in_frame.
  cbn [snd]. change (_message_handlers (set_calling_comm_id _ st))
    with (_message_handlers st).
  destruct (msg_buffers0 msg); reflexivity.
Qed.

Lemma deliver_reply_fills_inbox E (msg : message) v st st' blocking callback :
  let c := msg_content (msg_data msg) in
  msg_buffers0 msg = Loaded v →
  is_error c = Some false →
  _message_handlers st !! spyder_msg_type (msg_data msg)
    = Some MH_handle_remote_call_reply →
  _reply_waitlist st !! call_id c = Some (blocking, callback) →
  truthy blocking = true →
  _comm_message E msg st = (Returns tt, st') →
  _reply_inbox st' !! call_id c = Some (Reply false v c).
Proof.
  intros c Hbuf Herr Hmh Hwl Hb Hrun.
  rewrite comm_message_dispatch, Hmh, Hbuf in Hrun.
  cbn [message_handler_apply] in Hrun.
  assert (Hv : reply_view (msg_content (msg_data msg)) v None = Some (v, false))
    by (unfold reply_view; fold c; by rewrite Herr).
  unfold in_frame at 1 in Hrun.
  rewrite (reply_matched E (msg_data msg) v None
             (set_calling_comm_id (Some (msg_comm_id msg)) st)
             v false blocking callback Hv Hwl) in Hrun.
  fold c in Hrun. rewrite Hb in Hrun. cbn [andb negb] in Hrun.
  unfold in_frame, bind, ret, modify in Hrun.
  destruct callback as [cb|].
  - destruct (run_callback E cb v _) as [[r|et ea tb] s1]; [|done].
    inversion Hrun; subst st'. simpl. by rewrite lookup_insert_eq.
  - inversion Hrun; subst st'. simpl. by rewrite lookup_insert_eq.
Qed.

Lemma consume_reply E cid name timeout st st3 v c :
  wait_reply E cid name timeout st = (Returns tt, st3) →
  _reply_inbox st3 !! cid = Some (Reply false v c) →
  in_frame "__call__" (in_frame "_get_call_return_value" (
      _wait_reply E cid name timeout;;
      let! reply := pop_reply_inbox cid in
      if reply_is_error reply then _sync_error (reply_value reply);; ret VNone
      else ret (reply_value reply))) st
  = (Returns v, set_reply_inbox (delete cid) st3).
Proof.
  intros Hw Hslot. unfold _wait_reply, pop_reply_inbox.
  unfold in_frame, bind, get_state, modify, ret. by rewrite Hw, Hslot.
Qed.


(** C1.  A blocking call through a [RemoteCall] on an open channel, whose
    handler on the other side returns [v] without raising.  The call is
    handed to the caller's comm; the other side, receiving it, sends a reply
    with [is_error] false that carries [v]; that reply being delivered while
    the call is outstanding, and its inbox slot being there when the wait
    returns, the caller pops the slot and gets exactly [v]. *)
Theorem C1_blocking_call_returns_handler_value
    (self : RemoteCall_obj) (args : list value) (kwargs : list (string * value))
    (stA : State) (cidA : string) (eA : comm_entry)
    (stB stB1 : State) (cidB cidB1 : string) (eB : comm_entry) (v : value)
    (st_mid st_mid' stA3 : State) :
  let blocking := in_and_get "blocking" (rc_settings self) in
  let call_id := uuid4_hex EA (uuid_drawn stA) in
  let call_dict := call_dict_of EA self stA in
  let call_data := call_data_of args kwargs in
  let stA2 := call_sent EA self args kwargs stA in
  let call_msg :=
    delivered cidB
      (MsgDict "remote_call" call_dict (pickle_protocol eA) (sys_version EA),
       [Pickled call_data (pickle_protocol eA)]) in
  let reply_msg :=
    delivered cidA
      (MsgDict "remote_call_reply" (reply_to call_dict false)
               (pickle_protocol eB) (sys_version EB),
       [Pickled v (pickle_protocol eB)]) in
  (* the caller: a blocking call on an open channel *)
  rc_comm_id self = Some cidA →
  _comms stA !! cidA = Some eA →
  truthy blocking = true →
  (* the other side: the handler returns [v]; its channel is open *)
  _message_handlers stB !! "remote_call" = Some MH_handle_remote_call →
  _remote_callback EB (rc_name self) (VTuple args) (VDict kwargs)
    (set_calling_comm_id (Some cidB) stB) = (Returns v, stB1) →
  calling_comm_id stB1 = Some cidB1 →
  _comms stB1 !! cidB1 = Some eB →
  (* the caller's wait: the reply is delivered while the call is outstanding,
     and its slot is there when the wait returns *)
  wait_reply EA call_id (rc_name self) (call_timeout self) stA2 = (Returns tt, stA3) →
  _message_handlers st_mid !! "remote_call_reply" = Some MH_handle_remote_call_reply →
  _reply_waitlist st_mid !! call_id = Some (blocking, rc_callback self) →
  _comm_message EA reply_msg st_mid = (Returns tt, st_mid') →
  _reply_inbox stA3 !! call_id = _reply_inbox st_mid' !! call_id →
  (* the call is the last message on the caller's comm *)
  (sent ∘ entry_comm <$> _comms stA2 !! cidA) =
    Some (sent (entry_comm eA) ++
          [(MsgDict "remote_call" call_dict (pickle_protocol eA) (sys_version EA),
            [Pickled call_data (pickle_protocol eA)])])%list ∧
  (* the dispatcher sends a non-error reply that carries [v] *)
  _comm_message EB call_msg stB =
    (Returns tt, send_to EB "remote_call_reply" (reply_to call_dict false) v [cidB1] stB1) ∧
  (sent ∘ entry_comm <$>
     _comms (send_to EB "remote_call_reply" (reply_to call_dict false) v [cidB1] stB1)
       !! cidB1) =
    Some (sent (entry_comm eB) ++
          [(MsgDict "remote_call_reply" (reply_to call_dict false)
                    (pickle_protocol eB) (sys_version EB),
            [Pickled v (pickle_protocol eB)])])%list ∧
  (* the caller gets exactly [v] *)
  RemoteCall.__call__ EA self args kwargs stA =
    (Returns v, set_reply_inbox (delete call_id) stA3).
Proof.
  intros blocking call_id call_dict call_data stA2 call_msg reply_msg
    HcidA HeA Hb HmhB HcbB HcidB HeB Hwait HmhA Hwl Hdeliver Hslot.
  split; [|split; [|split]].
  - subst stA2. unfold call_sent. rewrite HcidA. cbn [get_comm_id_list].
    rewrite send_to_single with (e := eA) by done. done.
  - rewrite comm_message_dispatch. cbn [msg_data call_msg delivered fst snd
      spyder_msg_type msg_buffers0 pickled_data msg_comm_id].
    rewrite HmhB. cbn [message_handler_apply]. unfold in_frame at 1.
    erewrite handle_remote_call_run with (s := RemoteCall.call_settings self)
      (out := Returns v) (st1 := stB1); try done.
    + rewrite HcidB. cbn [get_comm_id_list].
      rewrite in_and_get_call_settings_send_reply. fold blocking.
      unfold py_or. by rewrite Hb, Hb.
    + rewrite HcidB. by eapply is_open_Some.
  - rewrite send_to_single with (e := eB) by done. done.
  - rewrite blocking_call_run; [|rewrite HcidA; by eapply is_open_Some|done].
    apply consume_reply with (c := reply_to call_dict false); [done|].
    rewrite Hslot.
    apply (deliver_reply_fills_inbox EA reply_msg v st_mid st_mid' blocking
             (rc_callback self)); done.
Qed.

End RoundTrip.


(** ** No session becomes ready without the handshake *)

Section Ready.
Context (E : Externals).

Lemma roa_refl c st : ready_only_at c st st.
Proof. intros cid H. by left. Qed.

Lemma roa_trans c st1 st2 st3 :
  ready_only_at c st1 st2 → ready_only_at c st2 st3 → ready_only_at c st1 st3.
Proof.
  intros H12 H23 cid H. destruct (H23 cid H) as [H2|]; [|by right]. by apply H12.
Qed.

Lemma roa_weaken c st st' : ready_only_at None st st' → ready_only_at c st st'.
Proof. intros H cid Hr. destruct (H cid Hr) as [|]; [by left|done]. Qed.

Lemma roa_same_comms c st st' : _comms st' = _comms st → ready_only_at c st st'.
Proof. intros Heq cid H. left. unfold ready_at in *. by rewrite <- Heq. Qed.

Lemma roa_bind {A B} c (m : M A) (k : A → M B) st :
  ready_only_at c st (m st).2 →
  (∀ a st', m st = (Returns a, st') → ready_only_at c st' (k a st').2) →
  ready_only_at c st (bind m k st).2.
Proof.
  intros Hm Hk. unfold bind. destruct (m st) as [[a|etype args tb] st'] eqn:Hr.
  - eapply roa_trans; [exact Hm|]. by apply Hk.
  - exact Hm.
Qed.

Lemma roa_in_frame {A} c name (m : M A) st :
  ready_only_at c st (m st).2 → ready_only_at c st (in_frame name m st).2.
Proof. unfold in_frame. by destruct (m st) as [[|] ?]. Qed.

Lemma roa_try_except {A} c name (m : M A) h st :
  ready_only_at c st (m st).2 →
  (∀ info st', ready_only_at c st' (h info st').2) →
  ready_only_at c st (try_except name m h st).2.
Proof.
  intros Hm Hh. unfold try_except. destruct (m st) as [[|etype args tb] st'].
  - exact Hm.
  - destruct (is_Exception etype); [|exact Hm].
    eapply roa_trans; [exact Hm|]. apply Hh.
Qed.

Lemma send_to_status ty c data ids st cid :
  entry_status <$> _comms (send_to E ty c data ids st) !! cid =
  entry_status <$> _comms st !! cid.
Proof.
  unfold send_to. simpl. generalize (_comms st) as comms.
  induction ids as [|i ids IH]; intros comms; [done|].
  simpl. rewrite IH. destruct (decide (i = cid)) as [->|Hne].
  - rewrite lookup_alter_eq. by destruct (comms !! cid).
  - by rewrite lookup_alter_ne.
Qed.

Lemma roa_send_message c ty cont data comm_id st :
  ready_only_at c st (_send_message E ty cont data comm_id st).2.
Proof.
  unfold _send_message. apply roa_in_frame. unfold bind, get_state.
  destruct (negb (is_open st comm_id)); [apply roa_refl|].
  unfold modify. cbn [snd]. intros cid H. left. unfold ready_at in *.
  by rewrite send_to_status in H.
Qed.

Lemma roa_del_comm c cid st : ready_only_at c st (del_comm cid st).2.
Proof.
  unfold del_comm, bind, get_state.
  destruct (_comms st !! cid); [|apply roa_refl].
  intros cid' H. left. unfold ready_at in *. simpl in H.
  destruct (decide (cid = cid')) as [->|Hne].
  - by rewrite lookup_delete_eq in H.
  - by rewrite lookup_delete_ne in H.
Qed.

Lemma roa_close c comm_id st : ready_only_at c st (close comm_id st).2.
Proof.
  unfold close. apply roa_in_frame. unfold bind at 1, get_state.
  generalize (get_comm_id_list st comm_id) as ids. intros ids.
  revert st. induction ids as [|i ids IH]; intros st; [apply roa_refl|].
  simpl. apply roa_bind; [apply roa_del_comm|]. intros _ st' _. apply IH.
Qed.

Lemma roa_register_comm c cm st : ready_only_at c st (_register_comm cm st).2.
Proof.
  intros cid H. left. unfold ready_at in *. simpl in H.
  destruct (decide (cid = comm_id cm)) as [->|Hne].
  - by rewrite lookup_insert_eq in H.
  - by rewrite lookup_insert_ne in H.
Qed.

Lemma roa_set_call_return_value c cd data is_err st :
  ready_only_at c st (_set_call_return_value E cd data is_err st).2.
Proof.
  unfold _set_call_return_value. apply roa_in_frame.
  apply roa_bind.
  - unfold get_settings. destruct (settings cd); apply roa_refl.
  - intros s st' _. destruct (_ && _); [apply roa_refl|].
    unfold bind, get_state. apply roa_send_message.
Qed.

Lemma roa_register_call c cd cb st :
  ready_only_at c st (_register_call cd cb st).2.
Proof.
  unfold _register_call. apply roa_in_frame. apply roa_bind.
  - unfold get_settings. destruct (settings cd); apply roa_refl.
  - intros s st' _. destruct (_ || _); [|apply roa_refl]. by apply roa_same_comms.
Qed.

Lemma roa_print_error c v st :
  ready_only_at c st (CommsErrorWrapper.print_error v st).2.
Proof. destruct v; try apply roa_refl. by apply roa_same_comms. Qed.

Lemma roa_async_error c v st : ready_only_at c st (_async_error v st).2.
Proof. apply roa_in_frame, roa_print_error. Qed.

Lemma roa_sync_error c v st : ready_only_at c st (_sync_error v st).2.
Proof.
  apply roa_in_frame. destruct v; apply roa_refl.
Qed.

Lemma roa_pop_reply_inbox c cid st :
  ready_only_at c st (pop_reply_inbox cid st).2.
Proof.
  unfold pop_reply_inbox, bind, get_state.
  destruct (_reply_inbox st !! cid); [|apply roa_refl]. by apply roa_same_comms.
Qed.

Lemma handshake_message_run (msg : message) (p : Z) (s : gmap string value)
    (st : State) (e : comm_entry) :
  let cid := msg_comm_id msg in
  let c := msg_content (msg_data msg) in
  msg_buffers0 msg = Loaded (call_data_of [VInt p] []) →
  _message_handlers st !! spyder_msg_type (msg_data msg) = Some MH_handle_remote_call →
  _remote_call_handlers st !! call_name c = Some H_set_pickle_protocol →
  settings c = Some s →
  _comms st !! cid = Some e →
  ∃ st', _comm_message E msg st = (Returns tt, st') ∧
         pickle_protocol <$> _comms st' !! cid = Some (Z.min p (HIGHEST_PROTOCOL E)) ∧
         entry_status <$> _comms st' !! cid = Some ready.
Proof.
  intros cid c Hbuf Hmh Hh Hs He.
  set (st0 := set_calling_comm_id (Some cid) st).
  set (e1 := CommEntry (entry_comm e) (Z.min p (HIGHEST_PROTOCOL E)) ready).
  set (st1 := set_comms (<[cid := e1]>) st0).
  assert (Hcb : _remote_callback E (call_name c) (VTuple [VInt p]) (VDict []) st0
                = (Returns VNone, st1)).
  { unfold _remote_callback. unfold in_frame, bind, get_state at 1.
    change (_remote_call_handlers st0) with (_remote_call_handlers st).
    rewrite Hh. cbn [unpack_args unpack_kwargs ret call_handler_apply].
    unfold bind. by rewrite (set_pickle_protocol_run E p st0 cid e). }
  assert (He1 : _comms st1 !! cid = Some e1) by apply lookup_insert_eq.
  rewrite comm_message_dispatch, Hmh, Hbuf. cbn [message_handler_apply].
  unfold in_frame at 1. fold cid st0.
  erewrite handle_remote_call_run with (s := s) (out := Returns VNone) (st1 := st1);
    try done.
  - eexists. split; [reflexivity|]. cbn [get_comm_id_list calling_comm_id st1 st0
      set_comms set_calling_comm_id].
    destruct (truthy (in_and_get "send_reply" s)).
    + rewrite send_to_single with (e := e1) by done. done.
    + by rewrite He1.
  - by apply is_open_Some with (e := e1).
Qed.

Context (HE : externals_keep_status E).

Lemma roa_get_call_return_value c cd data comm_id st :
  ready_only_at c st (_get_call_return_value E cd data comm_id st).2.
Proof.
  unfold _get_call_return_value. apply roa_in_frame.
  apply roa_bind; [apply roa_send_message|]. intros _ st1 _.
  apply roa_bind.
  { unfold get_settings. destruct (settings cd); apply roa_refl. }
  intros s st2 _. destruct (negb _); [apply roa_refl|].
  apply roa_bind.
  { apply roa_in_frame, roa_weaken, HE. }
  intros _ st3 _. apply roa_bind; [apply roa_pop_reply_inbox|].
  intros r st4 _. destruct (reply_is_error r); [|apply roa_refl].
  apply roa_bind; [apply roa_sync_error|]. intros. apply roa_refl.
Qed.

Lemma roa_call c rc args kwargs st :
  ready_only_at c st (RemoteCall.__call__ E rc args kwargs st).2.
Proof.
  unfold RemoteCall.__call__. apply roa_in_frame.
  unfold bind at 1, get_state at 1.
  apply roa_bind; [by apply roa_same_comms|]. intros _ st1 _.
  unfold bind at 1, get_state at 1.
  destruct (negb _).
  - destruct (truthy _); [apply roa_refl|].
    apply roa_bind; [by apply roa_same_comms|]. intros. apply roa_refl.
  - apply roa_bind; [apply roa_register_call|]. intros.
    apply roa_get_call_return_value.
Qed.

Lemma roa_pong_back c st : ready_only_at c st (pong_back E st).2.
Proof.
  unfold pong_back. apply roa_in_frame. unfold bind at 1, get_state.
  apply roa_bind; [apply roa_call|]. intros. apply roa_refl.
Qed.

Lemma roa_set_pickle_protocol p st :
  ready_only_at (calling_comm_id st) st (_set_pickle_protocol E p st).2.
Proof.
  unfold _set_pickle_protocol. apply roa_in_frame. apply roa_bind.
  { unfold min_with_highest. destruct p; apply roa_refl. }
  intros z st' Hz.
  assert (st' = st) as ->.
  { unfold min_with_highest in Hz. destruct p; by inversion Hz. }
  unfold bind, get_state.
  destruct (calling_comm_id st) as [cid|]; [|apply roa_refl].
  destruct (_comms st !! cid) as [e|]; [|apply roa_refl].
  intros cid' H. unfold ready_at in *. simpl in H.
  destruct (decide (cid = cid')) as [->|Hne]; [by right|].
  left. by rewrite lookup_insert_ne in H.
Qed.

Lemma roa_call_handler_apply h args kwargs st :
  ready_only_at (handler_session (Some h) st) st
    (call_handler_apply E h args kwargs st).2.
Proof.
  destruct h; simpl.
  - destruct args, kwargs; try apply roa_refl. apply roa_pong_back.
  - destruct args, kwargs; apply roa_refl.
  - destruct args as [|p [|]], kwargs as [|[n q] [|]]; try apply roa_refl.
    + destruct (String.eqb n "protocol"); [|apply roa_refl].
      apply roa_bind; [apply roa_set_pickle_protocol|]. intros. apply roa_refl.
    + apply roa_bind; [apply roa_set_pickle_protocol|]. intros. apply roa_refl.
  - apply HE.
Qed.

Lemma unpack_args_pure v st a st' :
  unpack_args v st = (Returns a, st') → st' = st.
Proof. destruct v; simpl; unfold ret, raise; by inversion 1. Qed.

Lemma unpack_kwargs_pure v st a st' :
  unpack_kwargs v st = (Returns a, st') → st' = st.
Proof. destruct v; simpl; unfold ret, raise; by inversion 1. Qed.

Lemma getitem_pure d key st : (getitem d key st).2 = st.
Proof.
  destruct d; simpl; try done.
  by destruct (_ !! key).
Qed.

Lemma roa_remote_callback name call_args call_kwargs st :
  ready_only_at (handler_session (_remote_call_handlers st !! name) st) st
    (_remote_callback E name call_args call_kwargs st).2.
Proof.
  unfold _remote_callback. apply roa_in_frame. unfold bind at 1, get_state.
  destruct (_remote_call_handlers st !! name) as [h|]; [|apply roa_refl].
  apply roa_bind.
  { destruct call_args; apply roa_refl. }
  intros args st1 H1. apply unpack_args_pure in H1 as ->.
  apply roa_bind.
  { destruct call_kwargs; apply roa_refl. }
  intros kwargs st2 H2. apply unpack_kwargs_pure in H2 as ->.
  apply roa_call_handler_apply.
Qed.

Lemma roa_handle_remote_call msg buffer load_exception st :
  ready_only_at
    (match load_exception with
     | Some _ => None
     | None => handler_session
                 (_remote_call_handlers st !! call_name (msg_content msg)) st
     end) st
    (_handle_remote_call E msg buffer load_exception st).2.
Proof.
  unfold _handle_remote_call. apply roa_in_frame.
  destruct load_exception; [by apply roa_same_comms|].
  apply roa_try_except; [|intros; apply roa_set_call_return_value].
  apply roa_bind.
  { pose proof (getitem_pure buffer "call_args" st) as Hp. rewrite Hp. apply roa_refl. }
  intros a st1 H1.
  assert (st1 = st) as -> by (rewrite <- (getitem_pure buffer "call_args" st); by rewrite H1).
  apply roa_bind.
  { pose proof (getitem_pure buffer "call_kwargs" st) as Hp. rewrite Hp. apply roa_refl. }
  intros k st2 H2.
  assert (st2 = st) as -> by (rewrite <- (getitem_pure buffer "call_kwargs" st); by rewrite H2).
  apply roa_bind; [apply roa_remote_callback|].
  intros. apply roa_set_call_return_value.
Qed.

Lemma roa_handle_remote_call_reply c msg buffer load_exception st :
  ready_only_at c st (_handle_remote_call_reply E msg buffer load_exception st).2.
Proof.
  unfold _handle_remote_call_reply. apply roa_in_frame. apply roa_bind.
  { destruct load_exception; [apply roa_refl|].
    unfold get_is_error. destruct (is_error (msg_content msg)); apply roa_refl. }
  intros [buf err] st1 _. unfold bind at 1, get_state.
  destruct (_reply_waitlist st1 !! _) as [[blocking callback]|].
  - apply roa_bind; [by apply roa_same_comms|]. intros _ st2 _.
    destruct (err && _); [apply roa_async_error|].
    apply roa_bind.
    + destruct callback as [cb|]; [|apply roa_refl].
      destruct (negb err); [|apply roa_refl].
      apply roa_bind; [apply roa_weaken, HE|]. intros. apply roa_refl.
    + intros _ st3 _. destruct (truthy blocking); [|apply roa_refl].
      by apply roa_same_comms.
  - destruct err; [apply roa_async_error|]. by apply roa_same_comms.
Qed.

Lemma roa_comm_message msg st :
  ready_only_at (handshake_session (EP_comm_message msg) st) st
    (_comm_message E msg st).2.
Proof.
  unfold _comm_message. apply roa_in_frame.
  apply roa_bind; [by apply roa_same_comms|]. intros [] st1 H1.
  assert (Hst : st1 = set_calling_comm_id (Some (msg_comm_id msg)) st)
    by (by inversion H1).
  clear H1. subst st1.
  set (st1 := set_calling_comm_id (Some (msg_comm_id msg)) st).
  unfold bind, get_state. simpl handshake_session.
  destruct (msg_buffers0 msg) as [v|e]; cbv beta iota;
    change (_message_handlers st1) with (_message_handlers st);
    destruct (_message_handlers st !! _) as [[]|];
    try apply roa_handle_remote_call_reply; try (by apply roa_same_comms).
  pose proof (roa_handle_remote_call (msg_data msg) v None st1) as H.
  change (_remote_call_handlers st1) with (_remote_call_handlers st) in H.
  simpl message_handler_apply.
  destruct (_remote_call_handlers st !! _) as [[]|]; exact H.
Qed.

Lemma ready_only_through_handshake ep st cid :
  ready_at (run_entry_point E ep st) cid →
  ¬ ready_at st cid →
  handshake_session ep st = Some cid.
Proof.
  intros Hafter Hbefore.
  assert (H : ready_only_at (handshake_session ep st) st (run_entry_point E ep st)).
  { destruct ep; simpl.
    - apply roa_close.
    - destruct handler; by apply roa_same_comms.
    - apply roa_register_comm.
    - apply roa_in_frame, roa_del_comm.
    - apply roa_comm_message.
    - apply roa_call. }
  destruct (H cid Hafter); done.
Qed.


(** C8.  Executing the handshake call on a session -- an incoming
    [remote_call] bound to [_set_pickle_protocol], with the requested version
    [p] -- sets that session's pickle protocol to [min p HIGHEST_PROTOCOL] and
    its status to [ready]; and whenever an entry point of [CommBase] takes a
    session from not ready to ready, that entry point is the handshake call
    on that session. *)
Theorem C8_handshake_negotiates_and_readies (msg : message) (p : Z)
    (s : gmap string value) (st : State) (e : comm_entry) :
  let cid := msg_comm_id msg in
  let c := msg_content (msg_data msg) in
  msg_buffers0 msg = Loaded (call_data_of [VInt p] []) →
  _message_handlers st !! spyder_msg_type (msg_data msg) = Some MH_handle_remote_call →
  _remote_call_handlers st !! call_name c = Some H_set_pickle_protocol →
  settings c = Some s →
  _comms st !! cid = Some e →
  (∃ st', _comm_message E msg st = (Returns tt, st') ∧
          pickle_protocol <$> _comms st' !! cid
            = Some (Z.min p (HIGHEST_PROTOCOL E)) ∧
          entry_status <$> _comms st' !! cid = Some ready) ∧
  _set_pickle_protocol E (VInt p) (set_calling_comm_id (Some cid) st) =
    (Returns tt,
     set_comms (<[cid := CommEntry (entry_comm e)
                           (Z.min p (HIGHEST_PROTOCOL E)) ready]>)
               (set_calling_comm_id (Some cid) st)) ∧
  (∀ ep st0 cid0,
     ready_at (run_entry_point E ep st0) cid0 →
     ¬ ready_at st0 cid0 →
     handshake_session ep st0 = Some cid0).
Proof.
  intros cid c Hbuf Hmh Hh Hs He. split; [|split].
  - by apply handshake_message_run with (s := s) (e := e).
  - by apply set_pickle_protocol_run.
  - apply ready_only_through_handshake.
Qed.

End Ready.

(** C7 as stated fails: on the endpoint of [Demo], the call of an unknown
    name does not fail with a class other than [CommError]. *)
Lemma C7_counterexample :
  ¬ ∃ etype args tb st',
      _remote_callback Demo.E "no_such_call" (VTuple []) (VDict []) Demo.st0 =
        (Raises etype args tb, st') ∧
      etype ≠ CommError.
Proof.
  intros (etype & args & tb & st' & Hrun & Hkind).
  rewrite remote_callback_unknown in Hrun by reflexivity.
  apply Hkind. congruence.
Qed.

(** ** The properties on the endpoint of [Demo] *)

Import Scenario.

Lemma C1_witness :
  RemoteCall.__call__ (Demo.E_waiting [add_reply]) add_call [VInt 2; VInt 3] []
    Demo.st0
  = (Returns (VInt 5),
     set_reply_inbox (delete (Demo.uuid 0))
       (_comm_message Demo.E add_reply
          (call_sent Demo.E add_call [VInt 2; VInt 3] [] Demo.st0)).2).
Proof.
  refine (proj2 (proj2 (proj2
    (C1_blocking_call_returns_handler_value
       (Demo.E_waiting [add_reply]) Demo.E add_call [VInt 2; VInt 3] []
       Demo.st0 "c1" c1_entry
       Demo.st0 (set_calling_comm_id (Some "c1") Demo.st0) "c1" "c1" c1_entry
       (VInt 5)
       (call_sent Demo.E add_call [VInt 2; VInt 3] [] Demo.st0)
       (_comm_message Demo.E add_reply
          (call_sent Demo.E add_call [VInt 2; VInt 3] [] Demo.st0)).2
       (_comm_message Demo.E add_reply
          (call_sent Demo.E add_call [VInt 2; VInt 3] [] Demo.st0)).2
       _ _ _ _ _ _ _ _ _ _ _ _)))); vm_compute; reflexivity.
Defined.


Lemma C3_witness :
  (_register_call add_call_content None Demo.st0).2 = Demo.st0 ∧
  (_register_call add_call_content (Some "cb") Demo.st0).2 =
    set_reply_waitlist (<["id1" := (VBool false, Some "cb")]>) Demo.st0.
Proof.
  split.
  - refine (proj1 (proj2 (proj2
      (C3_register_tracks_iff Demo.E add_call_content _ None Demo.st0 eq_refl))) _).
    reflexivity.
  - refine (proj1 (proj2
      (C3_register_tracks_iff Demo.E add_call_content _ (Some "cb") Demo.st0 eq_refl)) _).
    reflexivity.
Defined.


Lemma C4_witness :
  let st1 := (_handle_remote_call_reply Demo.E (msg_data add_reply) (VInt 5) None
                with_call).2 in
  _reply_waitlist st1 !! Demo.uuid 0 = None ∧
  _handle_remote_call_reply Demo.E (msg_data add_reply) (VInt 5) None st1 =
    (Returns tt, add_log (LogUnexpectedReply "add" (Demo.uuid 0)) st1).
Proof.
  refine (C4_at_most_once Demo.E (msg_data add_reply) (msg_data add_reply)
            (VInt 5) (VInt 5) None None with_call (VBool true, None)
            (VInt 5) (VInt 5) false false _ _ _ _ _).
  - reflexivity.
  - vm_compute; reflexivity.
  - reflexivity.
  - reflexivity.
  - simpl. discriminate.
Defined.


Lemma C5_witness :
  RemoteCall.__call__ Demo.E
    (MkRemoteCall "add" (Some "c2") blocking_settings None) [] [] Demo.st0
  = (Raises CommError [VStr "The comm is not connected."] ["__call__"],
     draw_uuid Demo.st0) ∧
  RemoteCall.__call__ Demo.E (MkRemoteCall "add" (Some "c2") ∅ None) [] [] Demo.st0
  = (Returns VNone, add_log (LogUnconnectedComm "add") (draw_uuid Demo.st0)).
Proof.
  split.
  - refine (proj1 (C5_call_on_closed_channel Demo.E
      (MkRemoteCall "add" (Some "c2") blocking_settings None) [] [] Demo.st0 _)).
    vm_compute; reflexivity.
  - refine (proj1 (C5_call_on_closed_channel Demo.E
      (MkRemoteCall "add" (Some "c2") ∅ None) [] [] Demo.st0 _)).
    vm_compute; reflexivity.
Defined.



Lemma C7_witness :
  _remote_callback Demo.E "no_such_call" (VTuple []) (VDict []) received =
    (Raises CommError [VStr "No such spyder call type: no_such_call"]
            ["_remote_callback"], received).
Proof.
  exact (proj1 (C7_unknown_call_raises_CommError Demo.E unknown_call
                  (call_data_of [] []) received ∅ (VTuple []) (VDict [])
                  "c1" c1_entry eq_refl eq_refl eq_refl eq_refl eq_refl eq_refl)).
Defined.


Lemma C10_witness :
  _handle_remote_call_reply Demo.E (msg_data Demo.undecodable_reply) VNone
    (Some (VException "UnpicklingError" [VStr "invalid load key"])) with_call
  = (Returns tt,
     set_reply_inbox
       (<[Demo.uuid 0 :=
            Reply true
              (VTuple [VException "UnpicklingError" [VStr "invalid load key"];
                       VList []])
              (msg_content (msg_data Demo.undecodable_reply))]>)
       (set_reply_waitlist (delete (Demo.uuid 0)) with_call)).
Proof.
  exact (proj1 (C10_undecodable_reply_is_error_reply Demo.E
                  (msg_data Demo.undecodable_reply) VNone
                  (VException "UnpicklingError" [VStr "invalid load key"])
                  with_call)).
Defined.

Lemma demo_externals_keep_status : externals_keep_status Demo.E.
Proof.
  split; [|split].
  - intros f args kwargs st. simpl. unfold Demo.handlers.
    destruct (String.eqb f "add"); [|apply roa_refl].
    destruct args as [|[] [|[] [|]]], kwargs; apply roa_refl.
  - intros. apply roa_refl.
  - intros. apply roa_refl.
Qed.


Lemma C8_witness :
  ∃ st', _comm_message Demo.E handshake_message Demo.st0 = (Returns tt, st') ∧
         pickle_protocol <$> _comms st' !! "c1" = Some 4%Z ∧
         entry_status <$> _comms st' !! "c1" = Some ready.
Proof.
  exact (proj1 (C8_handshake_negotiates_and_readies Demo.E
                  demo_externals_keep_status handshake_message 4 ∅ Demo.st0
                  c1_entry eq_refl eq_refl eq_refl eq_refl eq_refl)).
Defined.


(** C2 (the code departs from the claim).  A blocking call whose error reply
    has a buffer that [cloudpickle.loads] rejects: the reply is matched and
    stored with [is_error] true, and consuming it raises [AttributeError]
    from [_sync_error], because the stored value is the pair
    [(load_exception, [])] and not a [CommsErrorWrapper]. *)
Theorem C2_undecodable_error_reply_raises_AttributeError :
  (RemoteCall.__call__ (Demo.E_waiting [Demo.undecodable_reply])
     (MkRemoteCall "div0" (Some "c1") blocking_settings None) [] [] Demo.st0).1
  = Raises "AttributeError"
      [VStr "'tuple' object has no attribute 'raise_error'"]
      ["__call__"; "_get_call_return_value"; "_sync_error"].
Proof. vm_compute. reflexivity. Qed.

(** * More of the module *)

(** ** Sending, sessions and the handler table *)

Section Sending.
Context (E : Externals).

Lemma foldl_alter_lookup {A} (f : A → A) (l : list string) (m : gmap string A) i :
  NoDup l →
  foldl (λ cs cid, alter f cid cs) m l !! i =
    if decide (i ∈ l) then f <$> m !! i else m !! i.
Proof.
  intros Hnd. revert m. induction Hnd as [|a l Ha Hnd IH]; intros m; [done|].
  simpl. rewrite IH. destruct (decide (a = i)) as [->|Hne].
  - rewrite lookup_alter_eq, decide_False by done.
    by rewrite decide_True by (by left).
  - rewrite lookup_alter_ne by done.
    destruct (decide (i ∈ l)) as [Hin|Hnin].
    + by rewrite decide_True by (by right).
    + rewrite decide_False; [done|]. by intros [->|]%elem_of_cons.
Qed.

Lemma elem_of_keys {A} (m : gmap string A) j :
  j ∈ (map_to_list m).*1 ↔ is_Some (m !! j).
Proof.
  rewrite list_elem_of_fmap. split.
  - intros [[k x] [-> Hin]]. apply elem_of_map_to_list in Hin. by eexists.
  - intros [x Hx]. exists (j, x). split; [done|]. by apply elem_of_map_to_list.
Qed.

Lemma foldl_alter_keys {A} (f : A → A) (m : gmap string A) :
  foldl (λ cs cid, alter f cid cs) m (map_to_list m).*1 = f <$> m.
Proof.
  apply map_eq. intros i. rewrite lookup_fmap.
  rewrite foldl_alter_lookup by apply NoDup_fst_map_to_list.
  destruct (decide _) as [|Hnin]; [done|].
  destruct (m !! i) eqn:Hi; [|done]. exfalso. apply Hnin, elem_of_keys. by eexists.
Qed.

Lemma alter_lookup_insert {A} (f : A → A) (m : gmap string A) i x :
  m !! i = Some x → alter f i m = <[i := f x]> m.
Proof.
  intros Hi. apply map_eq. intros j. destruct (decide (i = j)) as [->|Hne].
  - by rewrite lookup_alter_eq, lookup_insert_eq, Hi.
  - by rewrite lookup_alter_ne, lookup_insert_ne.
Qed.

Lemma send_message_one_run ty c data cid e st :
  _comms st !! cid = Some e →
  _send_message E ty c data (Some cid) st =
    (Returns tt, set_comms (<[cid := send_on E ty c data e]>) st).
Proof.
  intros He. rewrite _send_message_open by (by eapply is_open_Some).
  unfold send_to. cbn [get_comm_id_list foldl]. f_equal. unfold set_comms. f_equal.
  exact (alter_lookup_insert (send_on E ty c data) (_comms st) cid e He).
Qed.

Lemma is_ready_one_run cid e st :
  _comms st !! cid = Some e →
  is_ready (Some cid) st = (Returns (bool_decide (entry_status e = ready)), st).
Proof.
  intros He. unfold is_ready, in_frame, bind, get_state, status_is_ready, ret.
  simpl. rewrite He. by rewrite andb_true_r.
Qed.

(** X1.  [_send_message] to a registered comm hands exactly one message to
    that comm's [send], stamped and pickled with the pickle protocol of that
    session, and leaves every other session as it was. *)
Theorem send_message_to_one_comm ty c data cid e st :
  _comms st !! cid = Some e →
  _send_message E ty c data (Some cid) st =
    (Returns tt,
     set_comms (<[cid :=
        CommEntry
          (Comm (comm_id (entry_comm e))
                (sent (entry_comm e) ++
                 [(MsgDict ty c (pickle_protocol e) (sys_version E),
                   [Pickled data (pickle_protocol e)])]))
          (pickle_protocol e) (entry_status e)]>) st) ∧
  (∀ other, other ≠ cid →
     _comms (_send_message E ty c data (Some cid) st).2 !! other = _comms st !! other).
Proof.
  intros He. rewrite (send_message_one_run ty c data cid e st He). split; [done|].
  intros other Hne. simpl. by rewrite lookup_insert_ne.
Qed.

(** X2.  [_send_message] without a comm id raises [CommError] when no comm
    is registered, and otherwise sends the message on every registered comm,
    each with the pickle protocol of its own session. *)
Theorem send_message_broadcast ty c data st :
  _send_message E ty c data None st =
    if bool_decide (_comms st = ∅) then
      (Raises CommError [VStr "The comm is not connected."] ["_send_message"], st)
    else (Returns tt, set_comms (fmap (send_on E ty c data)) st).
Proof.
  case_bool_decide as Hempty.
  - apply _send_message_not_open. simpl. rewrite Hempty, map_size_empty.
    apply bool_decide_eq_false_2. lia.
  - rewrite _send_message_open.
    + unfold send_to, set_comms. cbn [get_comm_id_list]. f_equal. f_equal.
      apply foldl_alter_keys.
    + simpl. apply bool_decide_eq_true_2.
      apply map_size_non_empty_iff in Hempty. lia.
Qed.


Lemma status_fold_run (l : list string) st :
  (∀ i, i ∈ l → is_Some (_comms st !! i)) →
  foldr (λ cid k, let! b := status_is_ready cid in
                  let! bs := k in ret (b && bs)) (ret true) l st =
    (Returns (forallb (λ cid,
        bool_decide (entry_status <$> _comms st !! cid = Some ready)) l), st).
Proof.
  induction l as [|a l IH]; intros Hin; [done|].
  cbn [foldr forallb]. unfold bind at 1, status_is_ready at 1.
  destruct (Hin a) as [e He]; [by left|]. rewrite He.
  unfold bind at 1. rewrite IH by (intros i Hi; apply Hin; by right).
  unfold ret. simpl. do 3 f_equal. apply bool_decide_ext. split; congruence.
Qed.

(** X3.  [is_ready()] without a comm id never raises and leaves the state
    alone; it is true exactly when at least one comm is registered and every
    registered session is ready. *)
Theorem is_ready_all_comms st :
  ∃ b, is_ready None st = (Returns b, st) ∧
       (b = true ↔
        _comms st ≠ ∅ ∧
        ∀ cid e, _comms st !! cid = Some e → entry_status e = ready).
Proof.
  unfold is_ready, in_frame, bind, get_state. cbn [get_comm_id_list].
  case_bool_decide as Hlen.
  - exists false. split; [done|]. split; [done|]. intros [Hne _]. exfalso.
    apply Hne, map_to_list_empty_iff. apply length_zero_iff_nil in Hlen.
    by apply fmap_nil_inv in Hlen.
  - rewrite status_fold_run by (intros i Hi; by apply elem_of_keys).
    eexists. split; [done|].
    rewrite <- Is_true_true, forallb_True, Forall_forall. split.
    + intros Hall. split.
      * intros Hempty. apply Hlen. by rewrite Hempty, map_to_list_empty.
      * intros cid e He. specialize (Hall cid).
        rewrite elem_of_keys, He in Hall. specialize (Hall (mk_is_Some _ _ eq_refl)).
        apply bool_decide_spec in Hall. by inversion Hall.
    + intros [_ Hall] cid Hcid. apply elem_of_keys in Hcid as [e He].
      apply bool_decide_spec. rewrite He. simpl. f_equal. by eapply Hall.
Qed.

(** X4.  For a comm id that is not registered, [is_open] answers false but
    [is_ready] raises [KeyError]. *)
Theorem is_ready_closed_comm_raises cid st :
  _comms st !! cid = None →
  is_open st (Some cid) = false ∧
  is_ready (Some cid) st = (Raises "KeyError" [VStr cid] ["is_ready"], st).
Proof.
  intros Hc. split.
  - simpl. apply bool_decide_eq_false_2. rewrite Hc. by intros [? ?].
  - unfold is_ready, in_frame, bind, get_state, status_is_ready. simpl. by rewrite Hc.
Qed.


Lemma foldl_delete_lookup {A} (l : list string) (m : gmap string A) i :
  foldl (λ cs cid, delete cid cs) m l !! i =
    if decide (i ∈ l) then None else m !! i.
Proof.
  revert m. induction l as [|a l IH]; intros m; [done|].
  simpl. rewrite IH. destruct (decide (a = i)) as [->|Hne].
  - rewrite lookup_delete_eq. destruct (decide (i ∈ i :: l)) as [|Hn];
      [by destruct (decide (i ∈ l))|]. exfalso. apply Hn. by left.
  - rewrite lookup_delete_ne by done.
    destruct (decide (i ∈ l)) as [Hin|Hnin].
    + by rewrite decide_True by (by right).
    + rewrite decide_False; [done|]. by intros [->|]%elem_of_cons.
Qed.

Lemma close_fold_run (l : list string) st :
  NoDup l →
  (∀ i, i ∈ l → is_Some (_comms st !! i)) →
  foldr (λ cid k, del_comm cid;; k) (ret tt) l st =
    (Returns tt, set_comms (λ m, foldl (λ cs cid, delete cid cs) m l) st).
Proof.
  intros Hnd. revert st. induction Hnd as [|a l Ha Hnd IH]; intros st Hin.
  - by destruct st.
  - cbn [foldr]. unfold bind at 1, del_comm, bind, get_state.
    destruct (Hin a) as [e He]; [by left|]. rewrite He. unfold modify.
    rewrite IH; [done|]. intros i Hi. simpl.
    rewrite lookup_delete_ne by (intros ->; done). apply Hin. by right.
Qed.

(** X5.  [close()] without a comm id never raises and leaves no comm
    registered, so that [is_open()] is false afterwards. *)
Theorem close_all_comms st :
  close None st = (Returns tt, set_comms (λ _, ∅) st) ∧
  is_open (set_comms (λ _, ∅) st) None = false.
Proof.
  split; [|done].
  unfold close, in_frame, bind at 1, get_state. cbn [get_comm_id_list].
  rewrite close_fold_run.
  - f_equal. unfold set_comms. f_equal. apply map_eq. intros i.
    rewrite foldl_delete_lookup, lookup_empty.
    destruct (decide _) as [|Hnin]; [done|].
    destruct (_comms st !! i) eqn:Hi; [|done].
    exfalso. apply Hnin, elem_of_keys. by eexists.
  - apply NoDup_fst_map_to_list.
  - intros i Hi. by apply elem_of_keys.
Qed.

(** X6.  [close(comm_id)] and [_comm_close] remove exactly the session of
    that comm, after which sending to it raises [CommError]; on a comm that
    is not registered both raise [KeyError] and change nothing. *)
Theorem close_one_comm cid st :
  close (Some cid) st =
    match _comms st !! cid with
    | Some _ => (Returns tt, set_comms (delete cid) st)
    | None => (Raises "KeyError" [VStr cid] ["close"], st)
    end ∧
  _comm_close cid st =
    match _comms st !! cid with
    | Some _ => (Returns tt, set_comms (delete cid) st)
    | None => (Raises "KeyError" [VStr cid] ["_comm_close"], st)
    end ∧
  (∀ ty c data,
     _send_message E ty c data (Some cid) (set_comms (delete cid) st) =
       (Raises CommError [VStr "The comm is not connected."] ["_send_message"],
        set_comms (delete cid) st)) ∧
  (∀ other, other ≠ cid →
     _comms (set_comms (delete cid) st) !! other = _comms st !! other).
Proof.
  split; [|split; [|split]].
  - unfold close, in_frame, bind at 1, get_state. cbn [get_comm_id_list foldr].
    unfold bind, del_comm, bind, get_state, modify, raise, ret.
    by destruct (_comms st !! cid).
  - unfold _comm_close, in_frame, del_comm, bind, get_state, modify, raise.
    by destruct (_comms st !! cid).
  - intros. apply _send_message_not_open. simpl. apply bool_decide_eq_false_2.
    rewrite lookup_delete_eq. by intros [? ?].
  - intros other Hne. simpl. by rewrite lookup_delete_ne.
Qed.

(** X7.  The handler table.  A handler registered under a name is the one
    [_remote_callback] applies to a call of that name; registering [None]
    removes it, after which such a call fails with [CommError]; other names
    are not affected, and removing a name that is not there changes
    nothing. *)
Theorem register_call_handler_round_trip name h st :
  let st1 := (register_call_handler name (Some h) st).2 in
  let st2 := (register_call_handler name None st1).2 in
  (∀ args kwargs,
     _remote_callback E name (VTuple args) (VDict kwargs) st1 =
       in_frame "_remote_callback" (call_handler_apply E h args kwargs) st1) ∧
  (∀ call_args call_kwargs,
     _remote_callback E name call_args call_kwargs st2 =
       (Raises CommError [VStr ("No such spyder call type: " ++ name)]
               ["_remote_callback"], st2)) ∧
  (∀ other, other ≠ name →
     _remote_call_handlers st1 !! other = _remote_call_handlers st !! other ∧
     _remote_call_handlers st2 !! other = _remote_call_handlers st !! other) ∧
  (_remote_call_handlers st !! name = None →
     (register_call_handler name None st).2 = st).
Proof.
  intros st1 st2. split; [|split; [|split]].
  - intros args kwargs.
    assert (Hl : _remote_call_handlers st1 !! name = Some h)
      by (subst st1; simpl; apply lookup_insert_eq).
    unfold _remote_callback, in_frame, bind at 1, get_state. by rewrite Hl.
  - intros. apply remote_callback_unknown. subst st2 st1. simpl.
    apply lookup_delete_eq.
  - intros other Hne. subst st2 st1. simpl.
    by rewrite lookup_delete_ne, lookup_insert_ne.
  - intros Hn. destruct st. simpl in *. unfold set_remote_call_handlers. simpl.
    f_equal. by apply delete_id.
Qed.

End Sending.

(** ** Calls *)

Section Calls.
Context (E : Externals).

Lemma nonblocking_call_run self args kwargs st :
  is_open st (rc_comm_id self) = true →
  truthy (in_and_get "blocking" (rc_settings self)) = false →
  RemoteCall.__call__ E self args kwargs st =
    (Returns VNone,
     send_to E "remote_call" (call_dict_of E self st) (call_data_of args kwargs)
       (get_comm_id_list st (rc_comm_id self))
       (match rc_callback self with
        | Some cb =>
            set_reply_waitlist
              (<[uuid4_hex E (uuid_drawn st) :=
                   (in_and_get "blocking" (rc_settings self), Some cb)]>)
              (draw_uuid st)
        | None => draw_uuid st
        end)).
Proof.
  intros Hopen Hb.
  unfold RemoteCall.__call__, _register_call, _get_call_return_value, get_settings.
  cbn [settings call_id call_name].
  unfold bind, ret, get_state, modify, in_frame.
  change (is_open (draw_uuid st) (rc_comm_id self)) with (is_open st (rc_comm_id self)).
  rewrite Hopen. cbn [negb].
  rewrite !in_and_get_call_settings_blocking, Hb. cbn [negb orb].
  destruct (rc_callback self) as [cb|].
  - rewrite bool_decide_eq_true_2 by done.
    rewrite _send_message_open by done. reflexivity.
  - rewrite bool_decide_eq_false_2 by (intros H; by apply H).
    rewrite _send_message_open by done. reflexivity.
Qed.

(** X8.  A call that is not blocking, on an open channel, returns [None] at
    once, whatever [_wait_reply] is: the uuid is drawn, the call is sent, and
    a waitlist entry is made only when a callback was given.  The
    ['send_reply'] it sends says whether a callback was given, whatever the
    settings held under that key; the inbox is not touched. *)
Theorem nonblocking_call_returns_at_once self args kwargs st :
  is_open st (rc_comm_id self) = true →
  truthy (in_and_get "blocking" (rc_settings self)) = false →
  let call_id := uuid4_hex E (uuid_drawn st) in
  let st' := (RemoteCall.__call__ E self args kwargs st).2 in
  (RemoteCall.__call__ E self args kwargs st).1 = Returns VNone ∧
  st' = send_to E "remote_call" (call_dict_of E self st) (call_data_of args kwargs)
          (get_comm_id_list st (rc_comm_id self))
          (match rc_callback self with
           | Some cb =>
               set_reply_waitlist
                 (<[call_id := (in_and_get "blocking" (rc_settings self), Some cb)]>)
                 (draw_uuid st)
           | None => draw_uuid st
           end) ∧
  RemoteCall.call_settings self !! "send_reply" =
    Some (VBool (bool_decide (rc_callback self ≠ None))) ∧
  _reply_inbox st' = _reply_inbox st ∧
  (rc_callback self = None → _reply_waitlist st' = _reply_waitlist st).
Proof.
  intros Hopen Hb call_id st'. subst st'.
  rewrite (nonblocking_call_run self args kwargs st Hopen Hb).
  split; [done|]. split; [done|]. split; [|split].
  - unfold RemoteCall.call_settings, py_or. by rewrite lookup_insert_eq, Hb.
  - by destruct (rc_callback self).
  - by intros ->.
Qed.

Lemma remote_callback_ping name st cid e :
  _remote_call_handlers st !! name = Some H_pong_back →
  calling_comm_id st = Some cid →
  _comms st !! cid = Some e →
  _remote_callback E name (VTuple []) (VDict []) st =
    (Returns VNone,
     send_to E "remote_call"
       (Content "pong" (uuid4_hex E (uuid_drawn st))
                (Some (<["send_reply" := VBool false]> ∅)) None)
       (call_data_of [] []) [cid] (draw_uuid st)).
Proof.
  intros Hh Hc He.
  unfold _remote_callback, in_frame at 1, bind at 1, get_state at 1. rewrite Hh.
  cbn [unpack_args unpack_kwargs]. unfold bind at 1, ret at 1.
  unfold bind at 1, ret at 1. cbn [call_handler_apply].
  unfold pong_back, in_frame at 1, bind at 1, get_state at 1. rewrite Hc.
  unfold bind at 1.
  rewrite nonblocking_call_run; [done| |done].
  by apply is_open_Some with (e := e).
Qed.

(** X9.  An incoming [ping] on a registered comm makes the endpoint send a
    [pong] call on that comm: a [remote_call] with a fresh call id, no
    arguments and ['send_reply'] false, for which nothing is put in the
    waitlist.  The ping itself is answered with [None] when it asked for a
    reply. *)
Theorem ping_is_answered_by_a_pong_call (msg : message) (s : gmap string value)
    (st : State) (e : comm_entry) :
  let cid := msg_comm_id msg in
  let c := msg_content (msg_data msg) in
  let pong :=
    Content "pong" (uuid4_hex E (uuid_drawn st))
            (Some (<["send_reply" := VBool false]> ∅)) None in
  let st1 :=
    send_to E "remote_call" pong (call_data_of [] []) [cid]
      (draw_uuid (set_calling_comm_id (Some cid) st)) in
  msg_buffers0 msg = Loaded (call_data_of [] []) →
  _message_handlers st !! spyder_msg_type (msg_data msg) = Some MH_handle_remote_call →
  _remote_call_handlers st !! call_name c = Some H_pong_back →
  settings c = Some s →
  _comms st !! cid = Some e →
  _comm_message E msg st =
    (Returns tt,
     if truthy (in_and_get "send_reply" s)
     then send_to E "remote_call_reply" (reply_to c false) VNone [cid] st1
     else st1) ∧
  _reply_waitlist st1 = _reply_waitlist st ∧
  (sent ∘ entry_comm <$> _comms st1 !! cid) =
    Some (sent (entry_comm e) ++
          [(MsgDict "remote_call" pong (pickle_protocol e) (sys_version E),
            [Pickled (call_data_of [] []) (pickle_protocol e)])])%list.
Proof.
  intros cid c pong st1 Hbuf Hmh Hh Hs He.
  set (st0 := set_calling_comm_id (Some cid) st).
  assert (Hcb : _remote_callback E (call_name c) (VTuple []) (VDict []) st0
                = (Returns VNone, st1))
    by (by apply remote_callback_ping with (e := e)).
  assert (He1 : _comms st1 !! cid = Some (send_on E "remote_call" pong (call_data_of [] []) e))
    by (by apply send_to_single).
  split; [|split].
  - rewrite comm_message_dispatch, Hmh, Hbuf. cbn [message_handler_apply].
    unfold in_frame at 1. fold cid st0.
    erewrite handle_remote_call_run with (s := s) (out := Returns VNone) (st1 := st1);
      try done.
    eapply is_open_Some. exact He1.
  - done.
  - by rewrite He1.
Qed.

(** X10.  When [_wait_reply] raises (a timeout of the subclass, or the
    [NotImplementedError] of [CommBase] itself), the blocking call raises the
    same exception; by then the call was sent and registered, and
    [_get_call_return_value] removes nothing: the state is the one the wait
    left. *)
Theorem blocking_call_wait_fails self args kwargs st etype eargs tb st3 :
  is_open st (rc_comm_id self) = true →
  truthy (in_and_get "blocking" (rc_settings self)) = true →
  wait_reply E (uuid4_hex E (uuid_drawn st)) (rc_name self) (call_timeout self)
    (call_sent E self args kwargs st) = (Raises etype eargs tb, st3) →
  RemoteCall.__call__ E self args kwargs st =
    (Raises etype eargs
       ("__call__" :: "_get_call_return_value" :: "_wait_reply" :: tb), st3) ∧
  _reply_waitlist (call_sent E self args kwargs st) !! uuid4_hex E (uuid_drawn st) =
    Some (in_and_get "blocking" (rc_settings self), rc_callback self).
Proof.
  intros Hopen Hb Hw. split.
  - rewrite blocking_call_run by done.
    unfold _wait_reply, in_frame, bind. by rewrite Hw.
  - unfold call_sent. simpl. apply lookup_insert_eq.
Qed.

(** X11.  When [_wait_reply] returns and the inbox has no slot for the
    call, popping it raises [KeyError] with the call id. *)
Theorem blocking_call_without_slot_raises_KeyError self args kwargs st st3 :
  is_open st (rc_comm_id self) = true →
  truthy (in_and_get "blocking" (rc_settings self)) = true →
  wait_reply E (uuid4_hex E (uuid_drawn st)) (rc_name self) (call_timeout self)
    (call_sent E self args kwargs st) = (Returns tt, st3) →
  _reply_inbox st3 !! uuid4_hex E (uuid_drawn st) = None →
  RemoteCall.__call__ E self args kwargs st =
    (Raises "KeyError" [VStr (uuid4_hex E (uuid_drawn st))]
       ["__call__"; "_get_call_return_value"], st3).
Proof.
  intros Hopen Hb Hw Hslot. rewrite blocking_call_run by done.
  unfold _wait_reply, pop_reply_inbox, in_frame, bind, get_state, raise.
  by rewrite Hw, Hslot.
Qed.

Lemma set_call_return_value_not_open c s data (is_err : bool) st :
  settings c = Some s →
  is_open st (calling_comm_id st) = false →
  _set_call_return_value E c data is_err st =
    if negb (truthy (in_and_get "send_reply" s)) && negb is_err
    then (Returns tt, st)
    else (Raises CommError [VStr "The comm is not connected."]
            ["_set_call_return_value"; "_send_message"], st).
Proof.
  intros Hs Hopen. unfold _set_call_return_value, get_settings. rewrite Hs.
  unfold bind at 1. unfold ret at 1. unfold in_frame.
  destruct (negb (truthy (in_and_get "send_reply" s)) && negb is_err); [done|].
  unfold bind, get_state. by rewrite _send_message_not_open.
Qed.

(** X13.  When the calling comm is not registered any more by the time a
    reply is to be sent, [_handle_remote_call] raises [CommError] to the
    transport: after a handler that returned and was asked for a reply, and
    after a handler that raised an [Exception] (the error reply cannot be
    sent either).  A handler that returned and was not asked for a reply
    sends nothing and raises nothing. *)
Theorem reply_on_closed_comm_raises_CommError msg buffer st s call_args call_kwargs
    out st1 :
  let c := msg_content msg in
  let not_connected :=
    (Raises CommError [VStr "The comm is not connected."]
       ["_handle_remote_call"; "_set_call_return_value"; "_send_message"], st1) in
  settings c = Some s →
  getitem buffer "call_args" st = (Returns call_args, st) →
  getitem buffer "call_kwargs" st = (Returns call_kwargs, st) →
  _remote_callback E (call_name c) call_args call_kwargs st = (out, st1) →
  is_open st1 (calling_comm_id st1) = false →
  _handle_remote_call E msg buffer None st =
    match out with
    | Returns v =>
        if truthy (in_and_get "send_reply" s) then not_connected
        else (Returns tt, st1)
    | Raises etype args tb =>
        if is_Exception etype then not_connected
        else (Raises etype args ("_handle_remote_call" :: tb), st1)
    end.
Proof.
  intros c nc Hs Ha Hk Hcb Hopen. unfold _handle_remote_call. fold c.
  unfold in_frame at 1, try_except at 1.
  unfold bind at 1. rewrite Ha. unfold bind at 1. rewrite Hk.
  unfold bind at 1. rewrite Hcb.
  destruct out as [v|etype args tb].
  - rewrite (set_call_return_value_not_open c s v false st1 Hs Hopen).
    rewrite andb_true_r. destruct (truthy (in_and_get "send_reply" s)); [|done].
    cbn [negb]. cbn [is_Exception]. 
    change (is_Exception CommError) with true. cbv iota.
    unfold CommsErrorWrapper.__init__.
    rewrite (set_call_return_value_not_open c s _ true st1 Hs Hopen).
    by rewrite andb_false_r.
  - destruct (is_Exception etype); [|done].
    unfold CommsErrorWrapper.__init__.
    rewrite (set_call_return_value_not_open c s _ true st1 Hs Hopen).
    by rewrite andb_false_r.
Qed.

End Calls.

Section More.
Context (EA EB : Externals).



(** X14.  A message whose [spyder_msg_type] has no handler -- never
    registered, or unregistered with [_register_message_handler(type, None)]
    -- is only logged: no handler runs, whatever its buffer, and only the
    calling comm and the log change. *)
Theorem unregistered_message_type_is_logged (msg : message) (st : State) :
  let ty := spyder_msg_type (msg_data msg) in
  let st1 := (_register_message_handler ty None st).2 in
  _comm_message EA msg st1 =
    (Returns tt,
     add_log (LogNoSuchMessageType ty)
       (set_calling_comm_id (Some (msg_comm_id msg)) st1)) ∧
  (∀ st0, _message_handlers st0 !! ty = None →
     _comm_message EA msg st0 =
       (Returns tt,
        add_log (LogNoSuchMessageType ty)
          (set_calling_comm_id (Some (msg_comm_id msg)) st0))).
Proof.
  intros ty st1.
  assert (H : ∀ st0, _message_handlers st0 !! ty = None →
     _comm_message EA msg st0 =
       (Returns tt,
        add_log (LogNoSuchMessageType ty)
          (set_calling_comm_id (Some (msg_comm_id msg)) st0))).
  { intros st0 Hn. rewrite comm_message_dispatch. fold ty. by rewrite Hn. }
  split; [|done]. apply H. subst st1. simpl. apply lookup_delete_eq.
Qed.

End More.

(** ** Sessions and the handshake *)

Section Sessions.
Context (E : Externals).

(** X15.  [_register_comm] opens a session on the comm: it is open, not
    ready, its pickle protocol is [DEFAULT_PICKLE_PROTOCOL] -- also when a
    session with that comm id was there before -- and messages sent on it
    use that protocol; the other sessions are as they were. *)
Theorem register_comm_opens_a_fresh_session (c : comm) (st : State) :
  let cid := comm_id c in
  let st1 := (_register_comm c st).2 in
  _comms st1 !! cid = Some (CommEntry c DEFAULT_PICKLE_PROTOCOL opening) ∧
  is_open st1 (Some cid) = true ∧
  is_open st1 None = true ∧
  is_ready (Some cid) st1 = (Returns false, st1) ∧
  (∀ other, other ≠ cid → _comms st1 !! other = _comms st !! other) ∧
  (∀ ty ct data,
     _send_message E ty ct data (Some cid) st1 =
       (Returns tt,
        set_comms (<[cid :=
          CommEntry
            (comm_send c (MsgDict ty ct DEFAULT_PICKLE_PROTOCOL (sys_version E))
                       [Pickled data DEFAULT_PICKLE_PROTOCOL])
            DEFAULT_PICKLE_PROTOCOL opening]>) st1)).
Proof.
  intros cid st1.
  assert (He : _comms st1 !! cid = Some (CommEntry c DEFAULT_PICKLE_PROTOCOL opening))
    by apply lookup_insert_eq.
  split; [done|]. split; [by eapply is_open_Some|]. split; [|split; [|split]].
  - simpl. apply bool_decide_eq_true_2.
    assert (size (<[comm_id c := CommEntry c DEFAULT_PICKLE_PROTOCOL opening]>
                    (_comms st)) ≠ 0)
      by apply map_size_non_empty_iff, insert_non_empty.
    lia.
  - by rewrite (is_ready_one_run cid _ st1 He).
  - intros other Hne. simpl. by rewrite lookup_insert_ne.
  - intros. by rewrite (send_message_one_run E ty ct data cid _ st1 He).
Qed.


(** X16.  After the handshake call on a session, [is_ready] is true for it
    and every message sent on it is stamped and pickled with the negotiated
    protocol, [min p HIGHEST_PROTOCOL]. *)
Theorem messages_after_handshake_use_negotiated_protocol (msg : message) (p : Z)
    (s : gmap string value) (st : State) (e : comm_entry) :
  let cid := msg_comm_id msg in
  let c := msg_content (msg_data msg) in
  let negotiated := Z.min p (HIGHEST_PROTOCOL E) in
  msg_buffers0 msg = Loaded (call_data_of [VInt p] []) →
  _message_handlers st !! spyder_msg_type (msg_data msg) = Some MH_handle_remote_call →
  _remote_call_handlers st !! call_name c = Some H_set_pickle_protocol →
  settings c = Some s →
  _comms st !! cid = Some e →
  ∃ st' e',
    _comm_message E msg st = (Returns tt, st') ∧
    _comms st' !! cid = Some e' ∧
    is_ready (Some cid) st' = (Returns true, st') ∧
    ∀ ty ct data,
      _send_message E ty ct data (Some cid) st' =
        (Returns tt,
         set_comms (<[cid :=
           CommEntry
             (comm_send (entry_comm e')
                (MsgDict ty ct negotiated (sys_version E))
                [Pickled data negotiated])
             negotiated ready]>) st').
Proof.
  intros cid c negotiated Hbuf Hmh Hh Hs He.
  destruct (handshake_message_run E msg p s st e Hbuf Hmh Hh Hs He)
    as (st' & Hrun & Hp & Hst).
  fold cid in Hp, Hst. destruct (_comms st' !! cid) as [e'|] eqn:He'; [|done].
  simpl in Hp, Hst. inversion Hp as [Hp']. inversion Hst as [Hst'].
  exists st', e'. split; [done|]. split; [done|]. split.
  - rewrite (is_ready_one_run cid e' st' He'). by rewrite Hst'.
  - intros. rewrite (send_message_one_run E ty ct data cid e' st' He').
    unfold send_on. by rewrite Hp', Hst'.
Qed.



End Sessions.

(** ** Replies *)

Section Replies.
Context (E : Externals).

Lemma untouched_refl other st : untouched_at other st st.
Proof. done. Qed.

Lemma untouched_trans other st1 st2 st3 :
  untouched_at other st1 st2 → untouched_at other st2 st3 →
  untouched_at other st1 st3.
Proof. intros (?&?&?) (?&?&?). repeat split; congruence. Qed.

Lemma untouched_async_error other buf st :
  untouched_at other st (_async_error buf st).2.
Proof. by destruct buf. Qed.

(** X19.  Handling a reply to one call leaves the other calls alone: the
    waitlist entry and the inbox slot of every other call id, and the comms,
    are as before -- given that the callback of the call, code of the
    application, leaves them alone. *)
Theorem reply_leaves_other_calls_alone (msg : msg_dict) (buffer : value)
    (load_exception : option value) (st : State) (buf : value) (err : bool)
    (other : string) :
  let cid := call_id (msg_content msg) in
  reply_view (msg_content msg) buffer load_exception = Some (buf, err) →
  other ≠ cid →
  (∀ blocking cb v st0,
     _reply_waitlist st !! cid = Some (blocking, Some cb) →
     untouched_at other st0 (run_callback E cb v st0).2) →
  untouched_at other st
    (_handle_remote_call_reply E msg buffer load_exception st).2.
Proof.
  intros cid Hv Hne Hcb.
  destruct (_reply_waitlist st !! cid) as [[blocking callback]|] eqn:Hw.
  - rewrite (reply_matched E msg buffer load_exception st buf err blocking callback
               Hv Hw). fold cid.
    set (st' := set_reply_waitlist (delete cid) st).
    assert (H0 : untouched_at other st st').
    { repeat split; try done. subst st'. simpl. by rewrite lookup_delete_ne. }
    eapply untouched_trans; [exact H0|]. clearbody st'.
    unfold in_frame at 1.
    destruct (err && negb (truthy blocking)).
    + pose proof (untouched_async_error other buf st') as Ha.
      by destruct (_async_error buf st') as [[|] ?].
    + match goal with |- context [bind ?m ?k] => set (cbm := m); set (kk := k) end.
      assert (Hc : untouched_at other st' (cbm st').2).
      { subst cbm. destruct callback as [cb|]; [|done].
        destruct (negb err); [|done]. unfold bind, ret.
        pose proof (Hcb blocking cb buf st' eq_refl) as H.
        by destruct (run_callback E cb buf st') as [[|] ?]. }
      unfold bind. destruct (cbm st') as [[[]|] s1]; [|done].
      subst kk. simpl in *. destruct (truthy blocking); [|done].
      eapply untouched_trans; [exact Hc|].
      repeat split; try done. simpl. by rewrite lookup_insert_ne.
  - rewrite (reply_unmatched E msg buffer load_exception st buf err Hv Hw).
    unfold in_frame. destruct err.
    + pose proof (untouched_async_error other buf st) as Ha.
      by destruct (_async_error buf st) as [[|] ?].
    + done.
Qed.

(** X21.  A reply to a call that is registered and not blocking.  An error
    reply that carries a [CommsErrorWrapper] is printed to [sys.stderr] and
    the callback is not run; any other error payload has no [print_error]
    and raises [AttributeError].  A successful reply goes to the callback,
    whose exception, if any, reaches the transport.  The entry is removed
    in every case, and no inbox slot is made. *)
Theorem nonblocking_reply_routing (msg : msg_dict) (buffer : value) (st : State)
    (blocking : value) (callback : option string) (err : bool) :
  let c := msg_content msg in
  let st' := set_reply_waitlist (delete (call_id c)) st in
  is_error c = Some err →
  _reply_waitlist st !! call_id c = Some (blocking, callback) →
  truthy blocking = false →
  _handle_remote_call_reply E msg buffer None st =
    if err then
      match buffer with
      | VErrorWrapper call_name _ etype error tb =>
          (Returns tt,
           add_stderr (CommsErrorWrapper.format_error call_name etype error tb) st')
      | _ =>
          (Raises "AttributeError"
             [VStr ("'" ++ type_name buffer
                    ++ "' object has no attribute 'print_error'")]
             ["_handle_remote_call_reply"; "_async_error"], st')
      end
    else
      match callback with
      | Some cb =>
          in_frame "_handle_remote_call_reply" (run_callback E cb buffer;; ret tt) st'
      | None => (Returns tt, st')
      end.
Proof.
  intros c st' Herr Hw Hb.
  assert (Hv : reply_view c buffer None = Some (buffer, err))
    by (unfold reply_view; by rewrite Herr).
  rewrite (reply_matched E msg buffer None st buffer err blocking callback Hv Hw).
  fold c st'. rewrite Hb. cbn [negb]. rewrite andb_true_r.
  destruct err.
  - by destruct buffer.
  - cbn [negb]. destruct callback as [cb|]; [|done].
    unfold in_frame, bind, ret. by destruct (run_callback E cb buffer st') as [[|] ?].
Qed.

(** X20.  Two calls with callbacks, one after the other on the same open
    channel, each draw one uuid; when the two uuids differ both calls are in
    the waitlist afterwards, each with its own callback, and the comm got
    the two calls in that order. *)
Theorem successive_calls_have_their_own_entries
    (self1 self2 : RemoteCall_obj) (args1 args2 : list value)
    (kwargs1 kwargs2 : list (string * value)) (st : State) (cid : string)
    (e : comm_entry) (cb1 cb2 : string) :
  let id1 := uuid4_hex E (uuid_drawn st) in
  let id2 := uuid4_hex E (S (uuid_drawn st)) in
  let st1 := (RemoteCall.__call__ E self1 args1 kwargs1 st).2 in
  let st2 := (RemoteCall.__call__ E self2 args2 kwargs2 st1).2 in
  rc_comm_id self1 = Some cid →
  rc_comm_id self2 = Some cid →
  _comms st !! cid = Some e →
  truthy (in_and_get "blocking" (rc_settings self1)) = false →
  truthy (in_and_get "blocking" (rc_settings self2)) = false →
  rc_callback self1 = Some cb1 →
  rc_callback self2 = Some cb2 →
  id1 ≠ id2 →
  _reply_waitlist st2 !! id1 =
    Some (in_and_get "blocking" (rc_settings self1), Some cb1) ∧
  _reply_waitlist st2 !! id2 =
    Some (in_and_get "blocking" (rc_settings self2), Some cb2) ∧
  uuid_drawn st2 = S (S (uuid_drawn st)) ∧
  (sent ∘ entry_comm <$> _comms st2 !! cid) =
    Some (sent (entry_comm e) ++
          [(MsgDict "remote_call" (call_dict_of E self1 st) (pickle_protocol e)
                    (sys_version E),
            [Pickled (call_data_of args1 kwargs1) (pickle_protocol e)]);
           (MsgDict "remote_call" (call_dict_of E self2 st1) (pickle_protocol e)
                    (sys_version E),
            [Pickled (call_data_of args2 kwargs2) (pickle_protocol e)])])%list ∧
  call_id (call_dict_of E self1 st) = id1 ∧
  call_id (call_dict_of E self2 st1) = id2.
Proof.
  intros id1 id2 st1 st2 Hc1 Hc2 He Hb1 Hb2 Hcb1 Hcb2 Hne.
  assert (Hopen : is_open st (rc_comm_id self1) = true)
    by (rewrite Hc1; by eapply is_open_Some).
  assert (Hst1 : st1 =
    send_to E "remote_call" (call_dict_of E self1 st) (call_data_of args1 kwargs1) [cid]
      (set_reply_waitlist
         (<[id1 := (in_and_get "blocking" (rc_settings self1), Some cb1)]>)
         (draw_uuid st))).
  { subst st1. rewrite (nonblocking_call_run E self1 args1 kwargs1 st Hopen Hb1).
    by rewrite Hcb1, Hc1. }
  assert (He1 : _comms st1 !! cid =
    Some (send_on E "remote_call" (call_dict_of E self1 st)
            (call_data_of args1 kwargs1) e))
    by (rewrite Hst1; by apply send_to_single).
  assert (Hopen1 : is_open st1 (rc_comm_id self2) = true)
    by (rewrite Hc2; by eapply is_open_Some).
  assert (Hn1 : uuid_drawn st1 = S (uuid_drawn st)) by (by rewrite Hst1).
  assert (Hst2 : st2 =
    send_to E "remote_call" (call_dict_of E self2 st1) (call_data_of args2 kwargs2) [cid]
      (set_reply_waitlist
         (<[id2 := (in_and_get "blocking" (rc_settings self2), Some cb2)]>)
         (draw_uuid st1))).
  { subst st2. rewrite (nonblocking_call_run E self2 args2 kwargs2 st1 Hopen1 Hb2).
    rewrite Hcb2, Hc2, Hn1. done. }
  split; [|split; [|split; [|split; [|split]]]].
  - rewrite Hst2. simpl. rewrite lookup_insert_ne by done.
    rewrite Hst1. simpl. apply lookup_insert_eq.
  - rewrite Hst2. simpl. apply lookup_insert_eq.
  - rewrite Hst2. simpl. by rewrite Hn1.
  - rewrite Hst2. rewrite send_to_single with
      (e := send_on E "remote_call" (call_dict_of E self1 st)
              (call_data_of args1 kwargs1) e) by done.
    simpl. by rewrite <- app_assoc.
  - done.
  - unfold call_dict_of. simpl. by rewrite Hn1.
Qed.

End Replies.

(** ** These properties on the endpoint of [Demo] *)

Import Scenario2.

Lemma X1_witness :
  (_send_message Demo.E "remote_call_reply" (reply_to add_call_content false)
     (VInt 5) (Some "c1") Demo.st0).1 = Returns tt.
Proof.
  exact (f_equal fst (proj1 (send_message_to_one_comm Demo.E "remote_call_reply"
           (reply_to add_call_content false) (VInt 5) "c1" c1_entry Demo.st0 eq_refl))).
Defined.

Lemma X4_witness :
  is_ready (Some "c2") Demo.st0 = (Raises "KeyError" [VStr "c2"] ["is_ready"], Demo.st0).
Proof. exact (proj2 (is_ready_closed_comm_raises "c2" Demo.st0 eq_refl)). Defined.

Lemma X8_witness :
  (RemoteCall.__call__ Demo.E (add_async "cb") [VInt 2; VInt 3] [] Demo.st0).1
  = Returns VNone.
Proof.
  exact (proj1 (nonblocking_call_returns_at_once Demo.E (add_async "cb")
                  [VInt 2; VInt 3] [] Demo.st0 eq_refl eq_refl)).
Defined.

Lemma X9_witness :
  _reply_waitlist
    (send_to Demo.E "remote_call"
       (Content "pong" (Demo.uuid 0) (Some (<["send_reply" := VBool false]> ∅)) None)
       (call_data_of [] []) ["c1"] (draw_uuid received))
  = _reply_waitlist Demo.st0.
Proof.
  exact (proj1 (proj2 (ping_is_answered_by_a_pong_call Demo.E ping_message ∅
                         Demo.st0 c1_entry eq_refl eq_refl eq_refl eq_refl eq_refl))).
Defined.

Lemma X10_witness :
  RemoteCall.__call__ Demo.E add_call [VInt 2; VInt 3] [] Demo.st0 =
    (Raises "NotImplementedError" []
       ["__call__"; "_get_call_return_value"; "_wait_reply"], with_call).
Proof.
  exact (proj1 (blocking_call_wait_fails Demo.E add_call [VInt 2; VInt 3] []
                  Demo.st0 "NotImplementedError" [] [] with_call
                  eq_refl eq_refl eq_refl)).
Defined.

Lemma X11_witness :
  RemoteCall.__call__ E_returning add_call [VInt 2; VInt 3] [] Demo.st0 =
    (Raises "KeyError" [VStr (Demo.uuid 0)]
       ["__call__"; "_get_call_return_value"],
     call_sent E_returning add_call [VInt 2; VInt 3] [] Demo.st0).
Proof.
  exact (blocking_call_without_slot_raises_KeyError E_returning add_call
           [VInt 2; VInt 3] [] Demo.st0 _ eq_refl eq_refl eq_refl eq_refl).
Defined.


Lemma X13_witness :
  _handle_remote_call Demo.E div0_call (call_data_of [] []) None closed =
    (Raises CommError [VStr "The comm is not connected."]
       ["_handle_remote_call"; "_set_call_return_value"; "_send_message"], closed).
Proof.
  exact (reply_on_closed_comm_raises_CommError Demo.E div0_call (call_data_of [] [])
           closed (<["send_reply" := VBool false]> ∅) (VTuple []) (VDict [])
           (Raises "ZeroDivisionError" [VStr "division by zero"]
                   ["_remote_callback"; "div0"])
           closed eq_refl eq_refl eq_refl eq_refl eq_refl).
Defined.

Lemma X16_witness :
  ∃ st' e',
    _comm_message Demo.E handshake_message Demo.st0 = (Returns tt, st') ∧
    _comms st' !! "c1" = Some e' ∧
    is_ready (Some "c1") st' = (Returns true, st').
Proof.
  destruct (messages_after_handshake_use_negotiated_protocol Demo.E
              handshake_message 4 ∅ Demo.st0 c1_entry
              eq_refl eq_refl eq_refl eq_refl eq_refl)
    as (st' & e' & Hrun & He & Hready & _).
  by exists st', e'.
Defined.


Lemma X19_witness :
  untouched_at "other" with_call
    (_handle_remote_call_reply Demo.E (msg_data add_reply) (VInt 5) None with_call).2.
Proof.
  refine (reply_leaves_other_calls_alone Demo.E (msg_data add_reply) (VInt 5) None
            with_call (VInt 5) false "other" eq_refl _ _).
  - vm_compute. discriminate.
  - intros. apply untouched_refl.
Defined.

Lemma X20_witness :
  _reply_waitlist
    (RemoteCall.__call__ Demo.E (add_async "cb2") [] []
       (RemoteCall.__call__ Demo.E (add_async "cb1") [] [] Demo.st0).2).2
    !! Demo.uuid 0 = Some (VBool false, Some "cb1").
Proof.
  refine (proj1 (successive_calls_have_their_own_entries Demo.E
                   (add_async "cb1") (add_async "cb2") [] [] [] [] Demo.st0 "c1"
                   c1_entry "cb1" "cb2" eq_refl eq_refl eq_refl eq_refl eq_refl
                   eq_refl eq_refl _)).
  vm_compute. discriminate.
Defined.

Lemma X21_witness :
  _handle_remote_call_reply Demo.E (msg_data add_reply) (VInt 5) None
    (RemoteCall.__call__ Demo.E (add_async "cb") [VInt 2; VInt 3] [] Demo.st0).2
  = (Returns tt,
     set_reply_waitlist (delete (Demo.uuid 0))
       (RemoteCall.__call__ Demo.E (add_async "cb") [VInt 2; VInt 3] [] Demo.st0).2).
Proof.
  exact (nonblocking_reply_routing Demo.E (msg_data add_reply) (VInt 5)
           (RemoteCall.__call__ Demo.E (add_async "cb") [VInt 2; VInt 3] [] Demo.st0).2
           (VBool false) (Some "cb") false eq_refl eq_refl eq_refl).
Defined.
